(** * AHT20 temperature / humidity sensor driver (AVR, I2C)

    A shallow embedding of [Sources/aht20.c] and of the declarations of
    [aht20.h], together with the properties of the measurement protocol:
    status-flag validation, CRC-8 check, extraction of the two packed
    20-bit fields and conversion to physical units. *)

From Stdlib Require Import ZArith QArith Qabs Qpower List Bool Lia.
From Stdlib Require Import Strings.Byte Floats.SpecFloat.
From stdpp Require Import base option gmap.
Import ListNotations.

Local Open Scope Z_scope.

(* ===================================================================== *)
(** ** Machine integers *)
(* ===================================================================== *)

(** A [uint8_t] is a [byte]; [u8] is its value as an integer. *)
Definition u8 (b : byte) : Z := Z.of_N (Byte.to_N b).

(** Wrap-around of [uint32_t] arithmetic. *)
Definition u32 (z : Z) : Z := z mod 2 ^ 32.

(** An integer cast to [uint8_t]: the low eight bits are kept. *)
Definition to_u8 (z : Z) : byte :=
  match Byte.of_N (Z.to_N (z mod 256)) with
  | Some b => b
  | None => x00
  end.

(** Modelled from the spec: the bit-test macros [bitCheckHigh] and
    [bitCheckLow] of [aKaReZa.h], which is not among the sources.  The spec
    reads them as "bit is set" and "bit is clear" of the status byte. *)
Definition bitCheckHigh (reg : byte) (bit : Z) : bool := Z.testbit (u8 reg) bit.
Definition bitCheckLow (reg : byte) (bit : Z) : bool := negb (Z.testbit (u8 reg) bit).

(* ===================================================================== *)
(** ** Declarations of [aht20.h] *)
(* ===================================================================== *)

Definition __AHT20_Add : Z := 0x38.

Definition __AHT20_Flag_CAL : Z := 3.
Definition __AHT20_Flag_BUSY : Z := 7.

Definition __AHT20_AFTER_POWER_ON_DELAY : Z := 40.
Definition __AHT20_DELAY : Z := 10.
Definition __AHT20_MEASURE_DELAY : Z := 80.

Inductive AHT20_Res_T : Set :=
| AHT20_Res_OK
| AHT20_Res_ERR
| AHT20_Res_TimeOut.

(* ===================================================================== *)
(** ** The CRC-8 engine *)
(* ===================================================================== *)

(** The configuration record [hcrc8_T] handed to [CRC8_Calc]. *)
Record hcrc8_T : Set := {
  Poly : Z;
  Init : Z;
  refIn : bool;
  refOut : bool;
  xorOut : Z
}.

(** Bit reversal of an 8-bit value. *)
Definition reflect8 (x : Z) : Z :=
  fold_left (fun acc i => if Z.testbit x i then Z.lor acc (Z.shiftl 1 (7 - i)) else acc)
            [0; 1; 2; 3; 4; 5; 6; 7] 0.

(** One shift of the 8-bit register, most significant bit first; the
    register is a [uint8_t], so the result is cut to eight bits. *)
Definition crc8_shift (poly reg : Z) : Z :=
  if Z.testbit reg 7
  then (Z.lxor (Z.shiftl reg 1) poly) mod 256
  else (Z.shiftl reg 1) mod 256.

(** The register after one more input byte. *)
Definition crc8_byte (h : hcrc8_T) (reg : Z) (b : byte) : Z :=
  let d := if refIn h then reflect8 (u8 b) else u8 b in
  Nat.iter 8 (crc8_shift (Poly h)) (Z.lxor reg d).

(** Modelled from the spec: the routine [CRC8_Calc] of the error-detection
    library ([err.h]), which is not among the sources.  The spec describes it
    as [compute(profile, bytes) -> byte] with profile = polynomial, initial
    value, input-reflect flag, output-reflect flag and final XOR; this is the
    bitwise CRC-8 with these five parameters, over the first [len] bytes. *)
Definition CRC8_Calc (h : hcrc8_T) (data : list byte) (len : nat) : Z :=
  let reg := fold_left (crc8_byte h) (firstn len data) (Init h) in
  Z.lxor (if refOut h then reflect8 reg else reg) (xorOut h).

(** The profile [crc8_aht20] set up in [aht20_getData]. *)
Definition crc8_aht20 : hcrc8_T :=
  {| Poly := 0x31; Init := 0xFF; refIn := false; refOut := false; xorOut := 0x00 |}.

(* ===================================================================== *)
(** ** Extraction of the raw fields *)
(* ===================================================================== *)

(** [_rxBuffer[i]], widened to [uint32_t]. *)
Definition rx_at (rx : list byte) (i : nat) : Z := u8 (nth i rx x00).

(** Lines 183-184: the three bytes are combined and masked to 20 bits. *)
Definition raw_Temp (rx : list byte) : Z :=
  let _Temp_I := u32 (rx_at rx 5 + Z.shiftl (rx_at rx 4) 8 + Z.shiftl (rx_at rx 3) 16) in
  Z.land _Temp_I 0x000FFFFF.

(** Lines 191-192: the three bytes are combined and shifted right by 4. *)
Definition raw_Humi (rx : list byte) : Z :=
  let _Humi_I := u32 (Z.shiftl (rx_at rx 1) 16 + Z.shiftl (rx_at rx 2) 8 + rx_at rx 3) in
  Z.shiftr _Humi_I 4.

(* ===================================================================== *)
(** ** Floating-point arithmetic *)
(* ===================================================================== *)

(** The driver multiplies a [uint32_t] by a decimal constant and subtracts a
    decimal constant.  The operations it needs are an interface, so that the
    control flow is proved once for every arithmetic; the numeric properties
    are proved on the 32-bit binary format of the AVR target, where [double]
    and [float] coincide, each operation rounding to nearest. *)
Class FloatOps (F : Type) := {
  f_dec : Z -> Z -> F;        (* the decimal literal  m e  =  m * 10^e *)
  f_u32 : Z -> F;             (* conversion of a [uint32_t] *)
  f_mul : F -> F -> F;
  f_sub : F -> F -> F
}.

(** [#define __AHT20_Humi_factor 95.367e-6] *)
Definition __AHT20_Humi_factor {F} `{FloatOps F} : F := f_dec 95367 (-9).
(** [#define __AHT20_Temp_factor 190.735e-6] *)
Definition __AHT20_Temp_factor {F} `{FloatOps F} : F := f_dec 190735 (-9).
(** [#define __AHT20_Temp_const 50.0] *)
Definition __AHT20_Temp_const {F} `{FloatOps F} : F := f_dec 500 (-1).

(** IEEE 754 binary32, round to nearest even, after [SpecFloat]. *)
Definition b32_of_Z (z : Z) : spec_float := binary_normalize 24 128 z 0 false.

Definition b32_dec (m e : Z) : spec_float :=
  if 0 <=? e
  then b32_of_Z (m * 10 ^ e)
  else SFdiv 24 128 (b32_of_Z m) (b32_of_Z (10 ^ (- e))).

#[export] Instance binary32_ops : FloatOps spec_float := {
  f_dec := b32_dec;
  f_u32 := b32_of_Z;
  f_mul := SFmul 24 128;
  f_sub := SFsub 24 128
}.

(** The rational a finite binary float stands for. *)
Definition SF2Q (x : spec_float) : Q :=
  match x with
  | S754_finite s m e => (inject_Z (cond_Zopp s (Z.pos m)) * Qpower (2 # 1) e)%Q
  | _ => 0%Q
  end.

(** [typedef struct { float Temp; float Humidity; } AHT20_Data_T;] *)
Record AHT20_Data_T (F : Type) : Type := {
  Temp : F;
  Humidity : F
}.
Arguments Temp {F} _.
Arguments Humidity {F} _.

(* ===================================================================== *)
(** ** The bus, the delay and the caller's memory *)
(* ===================================================================== *)

(** What the driver does to the outside, in order. *)
Inductive event : Set :=
| Ev_delay (ms : Z)
| Ev_write (addr : Z) (data : list byte)
| Ev_readSeq (addr : Z) (cmd : list byte) (n : nat)
| Ev_read (addr : Z) (n : nat).

(** Modelled from the spec: the bus transport ([i2c.h]) and the delay
    primitive, which are not among the sources.  The spec lists them as
    [write(address, bytes)], [write_then_read(address, command_bytes,
    read_buffer, read_len)], [read(address, read_buffer, read_len)] and
    [delay(milliseconds)]; none of them reports a status to the driver.
    The device on the bus is any state machine: a read yields the bytes it
    clocks out (byte [k] of the transaction) and its next state. *)
Class I2C_Device (Dev : Type) := {
  dev_delay : Z -> Dev -> Dev;
  dev_write : Z -> list byte -> Dev -> Dev;
  dev_readSeq : Z -> list byte -> Dev -> (nat -> byte) * Dev;
  dev_read : Z -> Dev -> (nat -> byte) * Dev
}.

(** The world a call runs in: the device, the caller's memory (the objects
    of type [AHT20_Data_T], by address) and the events so far. *)
Record world (F Dev : Type) : Type := {
  bus : Dev;
  ram : gmap Z (AHT20_Data_T F);
  trace : list event
}.
Arguments bus {F Dev} _.
Arguments ram {F Dev} _.
Arguments trace {F Dev} _.

(** A call either returns a value or faults on an access through a pointer
    that designates no object. *)
Inductive outcome (W A : Type) : Type :=
| Done (a : A) (w : W)
| Fault (w : W).
Arguments Done {W A} _ _.
Arguments Fault {W A} _.

Definition M (W A : Type) : Type := W -> outcome W A.

Definition ret {W A} (a : A) : M W A := fun w => Done a w.

Definition bind {W A B} (c : M W A) (k : A -> M W B) : M W B :=
  fun w => match c w with
           | Done a w' => k a w'
           | Fault w' => Fault w'
           end.

Declare Scope drv_scope.
Delimit Scope drv_scope with drv.
Notation "x <- c ;; k" := (bind c (fun x => k))
  (at level 100, c at next level, right associativity) : drv_scope.
Notation "c ;; k" := (bind c (fun _ => k))
  (at level 100, right associativity) : drv_scope.

Section Driver.
Context {F : Type} `{FloatOps F} {Dev : Type} `{I2C_Device Dev}.

Local Abbreviation W := (world F Dev).
Local Open Scope drv_scope.

Definition emit (e : event) (d : Dev) (w : W) : W :=
  {| bus := d; ram := ram w; trace := trace w ++ [e] |}.

Definition delay_ms (ms : Z) : M W unit :=
  fun w => Done tt (emit (Ev_delay ms) (dev_delay ms (bus w)) w).

Definition i2c_writeAddress (addr : Z) (data : list byte) (len : nat) : M W unit :=
  fun w => let sent := firstn len data in
           Done tt (emit (Ev_write addr sent) (dev_write addr sent (bus w)) w).

Definition i2c_readSequential (addr : Z) (cmd : list byte) (cmdlen : nat) (n : nat)
  : M W (list byte) :=
  fun w => let sent := firstn cmdlen cmd in
           let '(tx, d) := dev_readSeq addr sent (bus w) in
           Done (map tx (seq 0 n)) (emit (Ev_readSeq addr sent n) d w).

Definition i2c_readAdress (addr : Z) (n : nat) : M W (list byte) :=
  fun w => let '(tx, d) := dev_read addr (bus w) in
           Done (map tx (seq 0 n)) (emit (Ev_read addr n) d w).

(** [_Data->Temp = v] *)
Definition store_Temp (_Data : Z) (v : F) : M W unit :=
  fun w => match ram w !! _Data with
           | Some o => Done tt {| bus := bus w;
                                  ram := <[_Data := {| Temp := v; Humidity := Humidity o |}]> (ram w);
                                  trace := trace w |}
           | None => Fault w
           end.

(** [_Data->Humidity = v] *)
Definition store_Humidity (_Data : Z) (v : F) : M W unit :=
  fun w => match ram w !! _Data with
           | Some o => Done tt {| bus := bus w;
                                  ram := <[_Data := {| Temp := Temp o; Humidity := v |}]> (ram w);
                                  trace := trace w |}
           | None => Fault w
           end.

(** [AHT20_Res_T aht20_Init(void)] *)
Definition aht20_Init : M W AHT20_Res_T :=
  let _AHT20_CMD_Init := [xbe; x08; x00] in
  let _AHT20_CMD_Reset := [xba] in
  let _AHT20_CMD_Status := [x71] in
  delay_ms __AHT20_AFTER_POWER_ON_DELAY ;;
  i2c_writeAddress __AHT20_Add _AHT20_CMD_Reset 1 ;;
  delay_ms __AHT20_AFTER_POWER_ON_DELAY ;;
  _Status <- i2c_readSequential __AHT20_Add _AHT20_CMD_Status 1 1 ;;
  (if bitCheckLow (nth 0 _Status x00) __AHT20_Flag_CAL
   then i2c_writeAddress __AHT20_Add _AHT20_CMD_Init (length _AHT20_CMD_Init)
   else ret tt) ;;
  delay_ms __AHT20_DELAY ;;
  _Status <- i2c_readSequential __AHT20_Add _AHT20_CMD_Status 1 1 ;;
  if bitCheckLow (nth 0 _Status x00) __AHT20_Flag_CAL
  then ret AHT20_Res_ERR
  else ret AHT20_Res_OK.

(** The two conversions of [aht20_getData] (lines 187 and 195). *)
Definition conv_Temp (_Temp_I : Z) : F :=
  f_sub (f_mul (f_u32 _Temp_I) __AHT20_Temp_factor) __AHT20_Temp_const.

Definition conv_Humi (_Humi_I : Z) : F :=
  f_mul (f_u32 _Humi_I) __AHT20_Humi_factor.

(** [AHT20_Res_T aht20_getData(AHT20_Data_T* _Data)] *)
Definition aht20_getData (_Data : Z) : M W AHT20_Res_T :=
  let _AHT20_CMD_Trigger := [xac; x33; x00] in
  i2c_writeAddress __AHT20_Add _AHT20_CMD_Trigger 3 ;;
  delay_ms __AHT20_MEASURE_DELAY ;;
  _rxBuffer <- i2c_readAdress __AHT20_Add 7 ;;
  if bitCheckHigh (nth 0 _rxBuffer x00) __AHT20_Flag_BUSY
     || bitCheckLow (nth 0 _rxBuffer x00) __AHT20_Flag_CAL
  then ret AHT20_Res_ERR
  else if negb (CRC8_Calc crc8_aht20 _rxBuffer (length _rxBuffer) =? 0x00)
  then ret AHT20_Res_ERR
  else
    let _Temp_I := raw_Temp _rxBuffer in
    store_Temp _Data (conv_Temp _Temp_I) ;;
    let _Humi_I := raw_Humi _rxBuffer in
    store_Humidity _Data (conv_Humi _Humi_I) ;;
    ret AHT20_Res_OK.

(** *** What one call of [aht20_getData] sees and leaves behind *)

Definition _AHT20_CMD_Trigger : list byte := [xac; x33; x00].

(** The device when the 7-byte read starts: after the trigger command and
    the measurement delay. *)
Definition measure_dev (w : W) : Dev :=
  dev_delay __AHT20_MEASURE_DELAY (dev_write __AHT20_Add _AHT20_CMD_Trigger (bus w)).

(** The 7 bytes received into [_rxBuffer]. *)
Definition measure_frame (w : W) : list byte :=
  map (fst (dev_read __AHT20_Add (measure_dev w))) (seq 0 7).

(** The world once the frame is in: the memory is as before. *)
Definition after_measure (w : W) : W :=
  {| bus := snd (dev_read __AHT20_Add (measure_dev w));
     ram := ram w;
     trace := trace w ++ [Ev_write __AHT20_Add _AHT20_CMD_Trigger;
                          Ev_delay __AHT20_MEASURE_DELAY;
                          Ev_read __AHT20_Add 7] |}.

(** The same world with both fields of the object at [_Data] written. *)
Definition stored (_Data : Z) (v : AHT20_Data_T F) (w : W) : W :=
  {| bus := bus w; ram := <[_Data := v]> (ram w); trace := trace w |}.

(** *** What one call of [aht20_Init] sees and leaves behind *)

Definition _AHT20_CMD_Init : list byte := [xbe; x08; x00].
Definition _AHT20_CMD_Reset : list byte := [xba].
Definition _AHT20_CMD_Status : list byte := [x71].

(** The device when the first status read starts. *)
Definition init_dev1 (w : W) : Dev :=
  dev_delay __AHT20_AFTER_POWER_ON_DELAY
    (dev_write __AHT20_Add _AHT20_CMD_Reset
       (dev_delay __AHT20_AFTER_POWER_ON_DELAY (bus w))).

(** The status byte of the first read. *)
Definition init_status1 (w : W) : byte :=
  fst (dev_readSeq __AHT20_Add _AHT20_CMD_Status (init_dev1 w)) 0%nat.

(** The device when the second status read starts. *)
Definition init_dev2 (w : W) : Dev :=
  let d := snd (dev_readSeq __AHT20_Add _AHT20_CMD_Status (init_dev1 w)) in
  dev_delay __AHT20_DELAY
    (if bitCheckLow (init_status1 w) __AHT20_Flag_CAL
     then dev_write __AHT20_Add _AHT20_CMD_Init d
     else d).

(** The status byte of the second read. *)
Definition init_status2 (w : W) : byte :=
  fst (dev_readSeq __AHT20_Add _AHT20_CMD_Status (init_dev2 w)) 0%nat.

(** The events of one call, in order. *)
Definition init_events (w : W) : list event :=
  [Ev_delay __AHT20_AFTER_POWER_ON_DELAY;
   Ev_write __AHT20_Add _AHT20_CMD_Reset;
   Ev_delay __AHT20_AFTER_POWER_ON_DELAY;
   Ev_readSeq __AHT20_Add _AHT20_CMD_Status 1]
  ++ (if bitCheckLow (init_status1 w) __AHT20_Flag_CAL
      then [Ev_write __AHT20_Add _AHT20_CMD_Init]
      else [])
  ++ [Ev_delay __AHT20_DELAY;
      Ev_readSeq __AHT20_Add _AHT20_CMD_Status 1].

Definition after_init (w : W) : W :=
  {| bus := snd (dev_readSeq __AHT20_Add _AHT20_CMD_Status (init_dev2 w));
     ram := ram w;
     trace := trace w ++ init_events w |}.

End Driver.

(** *** Validation and decoding of a frame, as the spec words them *)

(** The BUSY flag (bit 7) and the CALIBRATED flag (bit 3) of a status byte. *)
Definition flag_BUSY (status : byte) : bool := Z.testbit (u8 status) 7.
Definition flag_CAL (status : byte) : bool := Z.testbit (u8 status) 3.

(** The status byte of a frame is its byte 0. *)
Definition frame_status (rx : list byte) : byte := nth 0 rx x00.

(** BUSY clear and CALIBRATED set in the status byte of the frame. *)
Definition status_ok (rx : list byte) : bool :=
  negb (flag_BUSY (frame_status rx)) && flag_CAL (frame_status rx).

(** CRC-8 over all 7 bytes equals zero. *)
Definition crc_ok (rx : list byte) : bool :=
  CRC8_Calc crc8_aht20 rx 7 =? 0.

(** The reading the two conversions give for a frame. *)
Definition decode {F} `{FloatOps F} (rx : list byte) : AHT20_Data_T F :=
  {| Temp := conv_Temp (raw_Temp rx); Humidity := conv_Humi (raw_Humi rx) |}.

(** The six bytes that carry a status byte and two raw 20-bit fields, after
    the frame layout: byte 1 = humidity bits 19:12, byte 2 = bits 11:4,
    byte 3 = humidity bits 3:0 above temperature bits 19:16, byte 4 =
    temperature bits 15:8, byte 5 = bits 7:0. *)
Definition frame_body (status : byte) (h_raw t_raw : Z) : list byte :=
  [status;
   to_u8 (Z.shiftr h_raw 12);
   to_u8 (Z.shiftr h_raw 4);
   to_u8 (Z.lor (Z.shiftl (Z.land h_raw 0xF) 4) (Z.shiftr t_raw 16));
   to_u8 (Z.shiftr t_raw 8);
   to_u8 t_raw].

(** The frame with its checksum appended: CRC-8 over bytes 0 to 5. *)
Definition pack_frame (status : byte) (h_raw t_raw : Z) : list byte :=
  let body := frame_body status h_raw t_raw in
  body ++ [to_u8 (CRC8_Calc crc8_aht20 body 6)].

(** The formulas of the data sheet, in exact arithmetic. *)
Definition temperature_C (raw_temp : Z) : Q :=
  (inject_Z raw_temp * ((200 # 1) / inject_Z (2 ^ 20)) - (50 # 1))%Q.

Definition humidity_pct (raw_humidity : Z) : Q :=
  (inject_Z raw_humidity * ((100 # 1) / inject_Z (2 ^ 20)))%Q.

(** The two fields as the frame layout words them: the temperature is
    byte 3's lower nibble, byte 4 and byte 5 put side by side; the humidity
    is byte 1, byte 2 and byte 3's upper nibble put side by side. *)
Definition temp_field (rx : list byte) : Z :=
  Z.lor (Z.shiftl (Z.land (rx_at rx 3) 0xF) 16)
        (Z.lor (Z.shiftl (rx_at rx 4) 8) (rx_at rx 5)).

Definition humi_field (rx : list byte) : Z :=
  Z.lor (Z.shiftl (rx_at rx 1) 12)
        (Z.lor (Z.shiftl (rx_at rx 2) 4) (Z.shiftr (rx_at rx 3) 4)).

(** Bytes 3 to 5 as one 24-bit value. *)
Definition temp_24 (rx : list byte) : Z :=
  Z.lor (Z.shiftl (rx_at rx 3) 16) (Z.lor (Z.shiftl (rx_at rx 4) 8) (rx_at rx 5)).

(** Bytes 1 to 3 as one 24-bit value. *)
Definition humi_24 (rx : list byte) : Z :=
  Z.lor (Z.shiftl (rx_at rx 1) 16) (Z.lor (Z.shiftl (rx_at rx 2) 8) (rx_at rx 3)).

(** *** A simulated device *)

(** A scripted device: every read transaction consumes the next response
    of the script and clocks out its bytes ([0xFF] beyond them, the idle
    level of the bus); writes and delays leave the script alone. *)
#[export] Instance script_device : I2C_Device (list (list byte)) := {
  dev_delay _ d := d;
  dev_write _ _ d := d;
  dev_readSeq _ _ d := (fun k => nth k (hd [] d) xff, tl d);
  dev_read _ d := (fun k => nth k (hd [] d) xff, tl d)
}.

(** A world around a scripted device, with one object of the caller at
    address [0x100], on the binary32 arithmetic. *)
Definition sim_world (script : list (list byte)) : world spec_float (list (list byte)) :=
  {| bus := script;
     ram := {[ 0x100 := {| Temp := S754_zero false; Humidity := S754_zero false |} ]};
     trace := [] |}.

(** The frame of the scenario: status [0x18], humidity field [0x80000],
    temperature field 0, and its checksum. *)
Definition frame_half : list byte := [x18; x80; x00; x00; x00; x00; x86].

(** The same frame with a wrong checksum byte. *)
Definition frame_corrupt : list byte := [x18; x80; x00; x00; x00; x00; x00].

(** Frames whose status byte reports busy, and not calibrated. *)
Definition frame_busy : list byte := pack_frame x98 0x80000 0.
Definition frame_uncal : list byte := pack_frame x10 0x80000 0.

(** Both fields at their largest value. *)
Definition frame_full : list byte := pack_frame x18 0xFFFFF 0xFFFFF.

(** *** Measures of a run *)

(** The world a call ends in, whether it returned or faulted. *)
Definition final_world {W A} (o : outcome W A) : W :=
  match o with
  | Done _ w => w
  | Fault w => w
  end.




(** What the eight shifts of one input byte do to a register value. *)
Definition crc8_step8 (poly d : Z) : Z := Nat.iter 8 (crc8_shift poly) d.

(** The eight shifts with polynomial 0x31 send no value of 1..255 to zero. *)
Definition crc8_step8_keeps_nonzero : bool :=
  forallb (fun n => 0 <? crc8_step8 0x31 (Z.of_nat n)) (seq 1 255).

(** *** Measures of a binary32 number *)

(** Every finite binary32 number is a whole number of units of 2^-149, the
    smallest positive one. *)
Definition units (x : spec_float) : Z :=
  match x with
  | S754_finite s m e => cond_Zopp s (Z.pos m) * 2 ^ (e + 149)
  | _ => 0
  end.

(** Zero, or finite with an exponent of the format. *)
Definition sf_finite (x : spec_float) : bool :=
  match x with
  | S754_zero _ => true
  | S754_finite _ _ e => -149 <=? e
  | _ => false
  end.

(** What is known of a mantissa [m] once it was shifted right: the quotient
    by [P] is in the record, and the two remembered bits tell where the
    remainder lies. *)
Definition shr_ok (m P : Z) (mrs : shr_record) : Prop :=
  exists rem,
    0 <= shr_m mrs
    /\ m = shr_m mrs * P + rem
    /\ 0 <= rem < P
    /\ (shr_r mrs = true -> P <= 2 * rem)
    /\ (shr_r mrs = false -> 2 * rem < P)
    /\ (shr_s mrs = false -> rem = 0 \/ 2 * rem = P).

(* ===================================================================== *)
(** ** Properties *)
(* ===================================================================== *)

Example crc8_check_value :
  CRC8_Calc crc8_aht20 [x31; x32; x33; x34; x35; x36; x37; x38; x39] 9 = 0xF7.
Proof. reflexivity. Qed.

(** *** Bytes and bit fields *)

Lemma u8_range (b : byte) : 0 <= u8 b < 256.
Proof.
  unfold u8. pose proof (Byte.to_N_bounded b) as Hb. lia.
Qed.

Lemma u8_to_u8 (z : Z) : u8 (to_u8 z) = z mod 256.
Proof.
  unfold u8, to_u8.
  assert (Hr : 0 <= z mod 256 < 256) by (apply Z.mod_pos_bound; lia).
  destruct (Byte.of_N (Z.to_N (z mod 256))) as [b|] eqn:E.
  - apply Byte.to_of_N in E. rewrite E. lia.
  - apply Byte.of_N_None_iff in E. lia.
Qed.

Lemma rx_at_range (rx : list byte) (i : nat) : 0 <= rx_at rx i < 256.
Proof. apply u8_range. Qed.

(** Putting [hi] above an [n]-bit value [lo] is an addition. *)
Lemma lor_shiftl_add (hi lo n : Z) :
  0 <= n -> 0 <= lo < 2 ^ n -> Z.lor (Z.shiftl hi n) lo = hi * 2 ^ n + lo.
Proof.
  intros Hn Hlo.
  assert (Hd : Z.land (Z.shiftl hi n) lo = 0).
  { apply Z.bits_inj'. intros i Hi.
    rewrite Z.land_spec, Z.bits_0.
    destruct (Z.lt_ge_cases i n) as [Hlt | Hge].
    - rewrite Z.shiftl_spec_low by assumption. reflexivity.
    - rewrite <- (Z.mod_small lo (2 ^ n)) by assumption.
      rewrite Z.mod_pow2_bits_high by lia. apply andb_false_r. }
  rewrite <- Z.lxor_lor by assumption.
  rewrite <- Z.add_nocarry_lxor by assumption.
  rewrite Z.shiftl_mul_pow2 by assumption. reflexivity.
Qed.

Lemma land_0xF (a : Z) : Z.land a 0xF = a mod 16.
Proof. change 0xF with (Z.ones 4). rewrite Z.land_ones by lia. reflexivity. Qed.

Lemma land_0xFFFFF (a : Z) : Z.land a 0x000FFFFF = a mod 2 ^ 20.
Proof. change 0x000FFFFF with (Z.ones 20). rewrite Z.land_ones by lia. reflexivity. Qed.

(** The raw temperature, by arithmetic on the three bytes. *)
Lemma raw_Temp_arith (rx : list byte) :
  raw_Temp rx = (rx_at rx 3 mod 16) * 65536 + rx_at rx 4 * 256 + rx_at rx 5.
Proof.
  unfold raw_Temp, u32.
  pose proof (rx_at_range rx 3). pose proof (rx_at_range rx 4).
  pose proof (rx_at_range rx 5).
  rewrite land_0xFFFFF, !Z.shiftl_mul_pow2 by lia.
  change (2 ^ 8) with 256. change (2 ^ 16) with 65536.
  change (2 ^ 20) with 1048576. change (2 ^ 32) with 4294967296.
  rewrite (Z.mod_small _ 4294967296) by lia.
  Z.div_mod_to_equations. lia.
Qed.

(** The raw humidity, by arithmetic on the three bytes. *)
Lemma raw_Humi_arith (rx : list byte) :
  raw_Humi rx = rx_at rx 1 * 4096 + rx_at rx 2 * 16 + rx_at rx 3 / 16.
Proof.
  unfold raw_Humi, u32.
  pose proof (rx_at_range rx 1). pose proof (rx_at_range rx 2).
  pose proof (rx_at_range rx 3).
  rewrite Z.shiftr_div_pow2, !Z.shiftl_mul_pow2 by lia.
  change (2 ^ 8) with 256. change (2 ^ 16) with 65536.
  change (2 ^ 4) with 16. change (2 ^ 32) with 4294967296.
  rewrite (Z.mod_small _ 4294967296) by lia.
  Z.div_mod_to_equations. lia.
Qed.

Lemma temp_field_arith (rx : list byte) :
  temp_field rx = (rx_at rx 3 mod 16) * 65536 + rx_at rx 4 * 256 + rx_at rx 5.
Proof.
  unfold temp_field.
  pose proof (rx_at_range rx 3). pose proof (rx_at_range rx 4).
  pose proof (rx_at_range rx 5).
  rewrite land_0xF.
  rewrite (lor_shiftl_add (rx_at rx 4) (rx_at rx 5) 8) by (change (2 ^ 8) with 256; lia).
  rewrite lor_shiftl_add by (change (2 ^ 8) with 256; change (2 ^ 16) with 65536; lia).
  change (2 ^ 8) with 256. change (2 ^ 16) with 65536. lia.
Qed.

Lemma humi_field_arith (rx : list byte) :
  humi_field rx = rx_at rx 1 * 4096 + rx_at rx 2 * 16 + rx_at rx 3 / 16.
Proof.
  unfold humi_field.
  pose proof (rx_at_range rx 1). pose proof (rx_at_range rx 2).
  pose proof (rx_at_range rx 3).
  rewrite Z.shiftr_div_pow2 by lia. change (2 ^ 4) with 16.
  assert (0 <= rx_at rx 3 / 16 < 16) by (Z.div_mod_to_equations; lia).
  rewrite (lor_shiftl_add (rx_at rx 2) _ 4) by (change (2 ^ 4) with 16; lia).
  rewrite lor_shiftl_add by (change (2 ^ 4) with 16; change (2 ^ 12) with 4096; lia).
  change (2 ^ 4) with 16. change (2 ^ 12) with 4096. lia.
Qed.

Lemma humi_24_arith (rx : list byte) :
  humi_24 rx = rx_at rx 1 * 65536 + rx_at rx 2 * 256 + rx_at rx 3.
Proof.
  unfold humi_24.
  pose proof (rx_at_range rx 1). pose proof (rx_at_range rx 2).
  pose proof (rx_at_range rx 3).
  rewrite (lor_shiftl_add (rx_at rx 2) _ 8) by (change (2 ^ 8) with 256; lia).
  rewrite lor_shiftl_add by (change (2 ^ 8) with 256; change (2 ^ 16) with 65536; lia).
  change (2 ^ 8) with 256. change (2 ^ 16) with 65536. lia.
Qed.

Lemma raw_Temp_24 (rx : list byte) : raw_Temp rx = Z.land (temp_24 rx) 0x000FFFFF.
Proof.
  rewrite raw_Temp_arith, land_0xFFFFF. unfold temp_24.
  pose proof (rx_at_range rx 3). pose proof (rx_at_range rx 4).
  pose proof (rx_at_range rx 5).
  rewrite (lor_shiftl_add (rx_at rx 4) (rx_at rx 5) 8) by (change (2 ^ 8) with 256; lia).
  rewrite lor_shiftl_add by (change (2 ^ 8) with 256; change (2 ^ 16) with 65536; lia).
  change (2 ^ 8) with 256. change (2 ^ 16) with 65536. change (2 ^ 20) with 1048576.
  Z.div_mod_to_equations. lia.
Qed.

Lemma raw_Temp_field (rx : list byte) : raw_Temp rx = temp_field rx.
Proof. rewrite raw_Temp_arith, temp_field_arith. reflexivity. Qed.

Lemma raw_Humi_field (rx : list byte) : raw_Humi rx = humi_field rx.
Proof. rewrite raw_Humi_arith, humi_field_arith. reflexivity. Qed.

Lemma raw_Humi_24 (rx : list byte) : raw_Humi rx = Z.shiftr (humi_24 rx) 4.
Proof.
  rewrite raw_Humi_arith, humi_24_arith.
  pose proof (rx_at_range rx 1). pose proof (rx_at_range rx 2).
  pose proof (rx_at_range rx 3).
  rewrite Z.shiftr_div_pow2 by lia. change (2 ^ 4) with 16.
  Z.div_mod_to_equations. lia.
Qed.

Lemma raw_Temp_range (rx : list byte) : 0 <= raw_Temp rx < 2 ^ 20.
Proof.
  rewrite raw_Temp_arith.
  pose proof (rx_at_range rx 3). pose proof (rx_at_range rx 4).
  pose proof (rx_at_range rx 5).
  change (2 ^ 20) with 1048576. Z.div_mod_to_equations. lia.
Qed.

Lemma raw_Humi_range (rx : list byte) : 0 <= raw_Humi rx < 2 ^ 20.
Proof.
  rewrite raw_Humi_arith.
  pose proof (rx_at_range rx 1). pose proof (rx_at_range rx 2).
  pose proof (rx_at_range rx 3).
  change (2 ^ 20) with 1048576. Z.div_mod_to_equations. lia.
Qed.

(** *** The checksum *)

Lemma crc8_shift_range (poly reg : Z) : 0 <= crc8_shift poly reg < 256.
Proof. unfold crc8_shift. destruct (Z.testbit reg 7); apply Z.mod_pos_bound; lia. Qed.

Lemma crc8_byte_range (h : hcrc8_T) (reg : Z) (b : byte) : 0 <= crc8_byte h reg b < 256.
Proof. unfold crc8_byte. cbn [Nat.iter nat_rect]. apply crc8_shift_range. Qed.

Lemma crc8_fold_range (h : hcrc8_T) (l : list byte) :
  forall reg, 0 <= reg < 256 -> 0 <= fold_left (crc8_byte h) l reg < 256.
Proof.
  induction l as [| b l IH]; intros reg Hreg; cbn [fold_left].
  - assumption.
  - apply IH, crc8_byte_range.
Qed.

(** A message followed by its own checksum has checksum zero. *)
Lemma CRC8_residue (body : list byte) :
  CRC8_Calc crc8_aht20
    (body ++ [to_u8 (CRC8_Calc crc8_aht20 body (length body))]) (S (length body)) = 0.
Proof.
  unfold CRC8_Calc. cbn [refOut xorOut Init crc8_aht20].
  rewrite firstn_all, !Z.lxor_0_r.
  rewrite firstn_all2 by (rewrite length_app; cbn [length]; lia).
  rewrite fold_left_app. cbn [fold_left].
  set (reg := fold_left (crc8_byte crc8_aht20) body 255).
  assert (Hreg : 0 <= reg < 256) by (apply crc8_fold_range; lia).
  unfold crc8_byte. cbn [refIn Poly crc8_aht20].
  rewrite u8_to_u8, Z.mod_small, Z.lxor_nilpotent by assumption.
  reflexivity.
Qed.

(** *** Packing a frame and reading it back *)

Lemma pack_frame_crc_ok (status : byte) (h_raw t_raw : Z) :
  crc_ok (pack_frame status h_raw t_raw) = true.
Proof.
  unfold crc_ok, pack_frame. apply Z.eqb_eq.
  exact (CRC8_residue (frame_body status h_raw t_raw)).
Qed.

Lemma pack_frame_status (status : byte) (h_raw t_raw : Z) :
  frame_status (pack_frame status h_raw t_raw) = status.
Proof. reflexivity. Qed.

Lemma pack_frame_raw_Humi (status : byte) (h_raw t_raw : Z) :
  0 <= h_raw < 2 ^ 20 -> 0 <= t_raw < 2 ^ 20 ->
  raw_Humi (pack_frame status h_raw t_raw) = h_raw.
Proof.
  intros Hh Ht. rewrite raw_Humi_arith.
  unfold pack_frame, frame_body, rx_at. cbn [nth app].
  rewrite !u8_to_u8, land_0xF, !Z.shiftr_div_pow2 by lia.
  change (2 ^ 20) with 1048576 in *.
  change (2 ^ 12) with 4096. change (2 ^ 4) with 16. change (2 ^ 16) with 65536.
  assert (0 <= t_raw / 65536 < 16) by (Z.div_mod_to_equations; lia).
  rewrite lor_shiftl_add by (change (2 ^ 4) with 16; lia).
  change (2 ^ 4) with 16.
  Z.div_mod_to_equations. lia.
Qed.

Lemma pack_frame_raw_Temp (status : byte) (h_raw t_raw : Z) :
  0 <= h_raw < 2 ^ 20 -> 0 <= t_raw < 2 ^ 20 ->
  raw_Temp (pack_frame status h_raw t_raw) = t_raw.
Proof.
  intros Hh Ht. rewrite raw_Temp_arith.
  unfold pack_frame, frame_body, rx_at. cbn [nth app].
  rewrite !u8_to_u8, land_0xF, !Z.shiftr_div_pow2 by lia.
  change (2 ^ 20) with 1048576 in *.
  change (2 ^ 8) with 256. change (2 ^ 16) with 65536.
  assert (0 <= t_raw / 65536 < 16) by (Z.div_mod_to_equations; lia).
  rewrite lor_shiftl_add by (change (2 ^ 4) with 16; lia).
  change (2 ^ 4) with 16.
  Z.div_mod_to_equations. lia.
Qed.

Section Control.
Context {F : Type} `{FloatOps F} {Dev : Type} `{I2C_Device Dev}.

Local Abbreviation W := (world F Dev).

Lemma status_ok_flags (rx : list byte) :
  bitCheckHigh (nth 0 rx x00) __AHT20_Flag_BUSY
  || bitCheckLow (nth 0 rx x00) __AHT20_Flag_CAL = negb (status_ok rx).
Proof.
  unfold status_ok, flag_BUSY, flag_CAL, frame_status, bitCheckHigh, bitCheckLow,
    __AHT20_Flag_BUSY, __AHT20_Flag_CAL.
  destruct (Z.testbit (u8 (nth 0 rx x00)) 7), (Z.testbit (u8 (nth 0 rx x00)) 3); reflexivity.
Qed.

Lemma measure_frame_length (w : W) : length (measure_frame w) = 7%nat.
Proof. reflexivity. Qed.

(** The whole of [aht20_getData] in one equation. *)
Lemma aht20_getData_run (p : Z) (w : W) :
  aht20_getData p w =
    if status_ok (measure_frame w) && crc_ok (measure_frame w)
    then match ram w !! p with
         | Some _ => Done AHT20_Res_OK (stored p (decode (measure_frame w)) (after_measure w))
         | None => Fault (after_measure w)
         end
    else Done AHT20_Res_ERR (after_measure w).
Proof.
  unfold aht20_getData, bind, i2c_writeAddress, delay_ms, i2c_readAdress, emit.
  cbn [bus ram trace firstn].
  fold _AHT20_CMD_Trigger.
  unfold measure_frame, after_measure, measure_dev.
  destruct (dev_read __AHT20_Add _) as [tx d] eqn:E.
  cbn [fst snd].
  rewrite status_ok_flags.
  rewrite <- !app_assoc; cbn [app].
  destruct (status_ok _); cbn [negb andb]; [| reflexivity].
  unfold crc_ok. change (length (map tx (seq 0 7))) with 7%nat.
  destruct (CRC8_Calc crc8_aht20 _ 7 =? 0); cbn [negb]; [| reflexivity].
  unfold store_Temp, store_Humidity, stored, decode, ret; cbn [bus ram trace].
  destruct (ram w !! p) as [o|]; [| reflexivity].
  cbn [bus ram trace].
  rewrite lookup_insert_eq. cbn [bus ram trace Temp Humidity].
  rewrite insert_insert_eq. reflexivity.
Qed.

(** The whole of [aht20_Init] in one equation. *)
Lemma aht20_Init_run (w : W) :
  aht20_Init w =
    Done (if bitCheckLow (init_status2 w) __AHT20_Flag_CAL
          then AHT20_Res_ERR else AHT20_Res_OK)
         (after_init w).
Proof.
  unfold aht20_Init, bind, i2c_writeAddress, delay_ms, i2c_readSequential, emit.
  cbn [bus ram trace firstn length].
  fold _AHT20_CMD_Init _AHT20_CMD_Reset _AHT20_CMD_Status.
  unfold after_init, init_events, init_status2, init_dev2, init_status1, init_dev1.
  destruct (dev_readSeq __AHT20_Add _AHT20_CMD_Status
              (dev_delay __AHT20_AFTER_POWER_ON_DELAY _)) as [tx1 d1].
  cbn [fst snd map seq nth bus ram trace].
  destruct (bitCheckLow (tx1 0%nat) __AHT20_Flag_CAL); cbn [ret bus ram trace].
  - destruct (dev_readSeq __AHT20_Add _AHT20_CMD_Status _) as [tx2 d2].
    cbn [fst snd map seq nth bus ram trace].
    rewrite <- !app_assoc; cbn [app].
    destruct (bitCheckLow (tx2 0%nat) __AHT20_Flag_CAL); reflexivity.
  - destruct (dev_readSeq __AHT20_Add _AHT20_CMD_Status _) as [tx2 d2].
    cbn [fst snd map seq nth bus ram trace].
    rewrite <- !app_assoc; cbn [app].
    destruct (bitCheckLow (tx2 0%nat) __AHT20_Flag_CAL); reflexivity.
Qed.

(** The run on a frame that passes both validations, with the fields as the
    frame layout words them. *)
Lemma aht20_getData_ok (p : Z) (w : W) :
  status_ok (measure_frame w) = true ->
  crc_ok (measure_frame w) = true ->
  is_Some (ram w !! p) ->
  aht20_getData p w =
    Done AHT20_Res_OK
      (stored p {| Temp := conv_Temp (temp_field (measure_frame w));
                   Humidity := conv_Humi (humi_field (measure_frame w)) |}
              (after_measure w)).
Proof.
  intros Hs Hc [o Ho].
  rewrite aht20_getData_run, Hs, Hc, Ho. cbn [andb].
  unfold decode. rewrite raw_Temp_field, raw_Humi_field. reflexivity.
Qed.

(** The run on a frame that fails a validation, whatever [_Data] is. *)
Lemma aht20_getData_err (p : Z) (w : W) :
  status_ok (measure_frame w) && crc_ok (measure_frame w) = false ->
  aht20_getData p w = Done AHT20_Res_ERR (after_measure w).
Proof. intros Hv. rewrite aht20_getData_run, Hv. reflexivity. Qed.

(** On a validated frame the object at [_Data] ends up holding the decoded
    reading. *)
Lemma aht20_getData_ok_lookup (p : Z) (w : W) :
  status_ok (measure_frame w) = true ->
  crc_ok (measure_frame w) = true ->
  is_Some (ram w !! p) ->
  exists w', aht20_getData p w = Done AHT20_Res_OK w'
             /\ ram w' !! p = Some (decode (measure_frame w)).
Proof.
  intros Hs Hc [o Ho].
  rewrite aht20_getData_run, Hs, Hc, Ho. cbn [andb].
  eexists. split; [reflexivity |]. cbn [stored ram]. apply lookup_insert_eq.
Qed.

(** What a return of Ok tells about the call. *)
Lemma aht20_getData_ok_inv (p : Z) (w w' : W) :
  aht20_getData p w = Done AHT20_Res_OK w' ->
  status_ok (measure_frame w) = true
  /\ crc_ok (measure_frame w) = true
  /\ ram w' !! p = Some (decode (measure_frame w)).
Proof.
  rewrite aht20_getData_run.
  destruct (status_ok _), (crc_ok _); cbn [andb]; try discriminate.
  destruct (ram w !! p); [| discriminate].
  intros E. injection E as <-. cbn [stored ram].
  rewrite lookup_insert_eq. auto.
Qed.

(** C2: on every validated frame [aht20_getData] takes the raw temperature
    to be byte 3's lower nibble (bits 19:16), byte 4 (bits 15:8) and byte 5
    (bits 7:0) side by side, which is the combination of bytes 3-5 masked to
    20 bits, and the raw humidity to be byte 1 (bits 19:12), byte 2
    (bits 11:4) and byte 3's upper nibble (bits 3:0) side by side, which is
    the 24-bit combination of bytes 1-3 with its low 4 bits dropped; these
    are the values it converts and stores. *)
Theorem aht20_getData_field_extraction (p : Z) (w : W) :
  raw_Temp (measure_frame w) = temp_field (measure_frame w)
  /\ raw_Temp (measure_frame w) = Z.land (temp_24 (measure_frame w)) 0x000FFFFF
  /\ raw_Humi (measure_frame w) = humi_field (measure_frame w)
  /\ raw_Humi (measure_frame w) = Z.shiftr (humi_24 (measure_frame w)) 4
  /\ (status_ok (measure_frame w) = true ->
      crc_ok (measure_frame w) = true ->
      is_Some (ram w !! p) ->
      aht20_getData p w =
        Done AHT20_Res_OK
          (stored p {| Temp := conv_Temp (temp_field (measure_frame w));
                       Humidity := conv_Humi (humi_field (measure_frame w)) |}
                  (after_measure w))).
Proof.
  repeat split.
  - apply raw_Temp_field.
  - apply raw_Temp_24.
  - apply raw_Humi_field.
  - apply raw_Humi_24.
  - apply aht20_getData_ok.
Qed.

(** C3: when the CRC-8 (polynomial 0x31, initial value 0xFF, no reflection,
    no final XOR) over all 7 received bytes is nonzero, [aht20_getData]
    returns Err with the memory untouched, whatever [_Data] is; a return of
    Ok, and a fault at the stores, happen only when this CRC is zero. *)
Theorem aht20_getData_crc_gate (p : Z) (w : W) :
  (CRC8_Calc crc8_aht20 (measure_frame w) 7 <> 0 ->
   aht20_getData p w = Done AHT20_Res_ERR (after_measure w)
   /\ ram (after_measure w) = ram w)
  /\ (forall w', aht20_getData p w = Done AHT20_Res_OK w' ->
      CRC8_Calc crc8_aht20 (measure_frame w) 7 = 0)
  /\ (forall w', aht20_getData p w = Fault w' ->
      CRC8_Calc crc8_aht20 (measure_frame w) 7 = 0).
Proof.
  rewrite aht20_getData_run. unfold crc_ok.
  destruct (Z.eqb_spec (CRC8_Calc crc8_aht20 (measure_frame w) 7) 0) as [E | E];
    rewrite ?andb_false_r.
  - repeat split; congruence.
  - repeat split; congruence.
Qed.

(** C4: a frame whose status byte has BUSY set or CALIBRATED clear makes
    [aht20_getData] return Err, whatever the CRC byte and the data bytes
    are; a frame with BUSY clear, CALIBRATED set and CRC zero over its 7
    bytes makes it return Ok and leaves in the object at [_Data] the
    conversions of the two fields of the frame layout. *)
Theorem aht20_getData_status_gate (p : Z) (w : W) :
  (flag_BUSY (frame_status (measure_frame w)) = true
   \/ flag_CAL (frame_status (measure_frame w)) = false ->
   aht20_getData p w = Done AHT20_Res_ERR (after_measure w))
  /\ (flag_BUSY (frame_status (measure_frame w)) = false ->
      flag_CAL (frame_status (measure_frame w)) = true ->
      CRC8_Calc crc8_aht20 (measure_frame w) 7 = 0 ->
      is_Some (ram w !! p) ->
      aht20_getData p w =
        Done AHT20_Res_OK
          (stored p {| Temp := conv_Temp (temp_field (measure_frame w));
                       Humidity := conv_Humi (humi_field (measure_frame w)) |}
                  (after_measure w))).
Proof.
  split.
  - intros Hf. apply aht20_getData_err. unfold status_ok.
    destruct Hf as [Hf | Hf]; rewrite Hf; [reflexivity |].
    rewrite andb_false_r. reflexivity.
  - intros Hb Hc Hcrc Hp. apply aht20_getData_ok; [| | exact Hp].
    + unfold status_ok. rewrite Hb, Hc. reflexivity.
    + unfold crc_ok. rewrite Hcrc. reflexivity.
Qed.

(** C5: [aht20_getData] writes to the caller's object only on the path that
    returns Ok: whenever it returns another code the memory is as before,
    and when it returns Ok the object at [_Data] holds both fields, the
    temperature and the humidity decoded from the frame, and nothing else
    has changed. *)
Theorem aht20_getData_writes_only_on_ok (p : Z) (w : W) :
  (forall r w', aht20_getData p w = Done r w' -> r <> AHT20_Res_OK -> ram w' = ram w)
  /\ (forall w', aht20_getData p w = Done AHT20_Res_OK w' ->
      is_Some (ram w !! p)
      /\ ram w' = <[p := decode (measure_frame w)]> (ram w)
      /\ ram w' !! p = Some (decode (measure_frame w))).
Proof.
  rewrite aht20_getData_run.
  destruct (status_ok (measure_frame w) && crc_ok (measure_frame w)).
  - destruct (ram w !! p) as [o |] eqn:Ho.
    + split.
      * intros r w' E Hr. congruence.
      * intros w' E. injection E as <-. cbn [stored ram].
        rewrite lookup_insert_eq. repeat split; eauto.
    + split; intros; discriminate.
  - split.
    + intros r w' E _. injection E as _ <-. reflexivity.
    + intros w' E. discriminate.
Qed.

(** C6: [aht20_Init] sends the 3-byte calibration command exactly when the
    CALIBRATED bit is clear in the first status read, then in every case
    waits 10 ms and reads the status again, and returns Err exactly when
    the CALIBRATED bit is clear in this second read and Ok otherwise. *)
Theorem aht20_Init_calibration (w : W) :
  aht20_Init w =
    Done (if flag_CAL (init_status2 w) then AHT20_Res_OK else AHT20_Res_ERR)
         (after_init w)
  /\ (In (Ev_write __AHT20_Add _AHT20_CMD_Init) (init_events w)
      <-> flag_CAL (init_status1 w) = false)
  /\ (exists pre, init_events w =
        pre ++ [Ev_delay __AHT20_DELAY; Ev_readSeq __AHT20_Add _AHT20_CMD_Status 1])
  /\ (aht20_Init w = Done AHT20_Res_ERR (after_init w)
      <-> flag_CAL (init_status2 w) = false)
  /\ (aht20_Init w = Done AHT20_Res_OK (after_init w)
      <-> flag_CAL (init_status2 w) = true).
Proof.
  rewrite aht20_Init_run. unfold init_events, bitCheckLow, flag_CAL, __AHT20_Flag_CAL.
  split; [| split; [| split; [| split]]].
  - destruct (Z.testbit (u8 (init_status2 w)) 3); reflexivity.
  - destruct (Z.testbit (u8 (init_status1 w)) 3); cbn [negb app In]; split.
    + intros [E | [E | [E | [E | [E | [E | []]]]]]]; discriminate.
    + discriminate.
    + reflexivity.
    + intros _. do 4 right. left. reflexivity.
  - eexists. rewrite app_assoc. reflexivity.
  - destruct (Z.testbit (u8 (init_status2 w)) 3); cbn [negb]; split;
      (reflexivity || discriminate).
  - destruct (Z.testbit (u8 (init_status2 w)) 3); cbn [negb]; split;
      (reflexivity || discriminate).
Qed.

(** C8: neither [aht20_Init] nor [aht20_getData] returns the Timeout code:
    whatever the device sends, [aht20_Init] returns Ok or Err, and every
    value [aht20_getData] returns is Ok or Err. *)
Theorem aht20_never_timeout (p : Z) (w : W) :
  (exists r, aht20_Init w = Done r (after_init w)
             /\ (r = AHT20_Res_OK \/ r = AHT20_Res_ERR))
  /\ (forall r w', aht20_getData p w = Done r w' ->
      r = AHT20_Res_OK \/ r = AHT20_Res_ERR).
Proof.
  split.
  - rewrite aht20_Init_run. eexists. split; [reflexivity |].
    destruct (bitCheckLow _ _); auto.
  - intros r w'. rewrite aht20_getData_run.
    destruct (status_ok _ && crc_ok _); [destruct (ram w !! p) |];
      intros E; inversion E; auto.
Qed.

(** C9: when the frame reports not-calibrated (as after a missing or failed
    initialization), or busy, or fails the CRC, [aht20_getData] returns Err
    for every value of the pointer [_Data], also one that designates no
    object, and leaves the memory as it was: the accesses through [_Data]
    come after all validations, so a fault can only happen once both have
    passed. *)
Theorem aht20_getData_validates_before_access (p : Z) (w : W) :
  (flag_CAL (frame_status (measure_frame w)) = false
   \/ flag_BUSY (frame_status (measure_frame w)) = true
   \/ CRC8_Calc crc8_aht20 (measure_frame w) 7 <> 0 ->
   aht20_getData p w = Done AHT20_Res_ERR (after_measure w)
   /\ ram (after_measure w) = ram w)
  /\ (forall w', aht20_getData p w = Fault w' ->
      status_ok (measure_frame w) = true
      /\ crc_ok (measure_frame w) = true
      /\ ram w !! p = None).
Proof.
  split.
  - intros Hv. split; [| reflexivity]. apply aht20_getData_err.
    unfold status_ok, crc_ok. destruct Hv as [Hv | [Hv | Hv]].
    + rewrite Hv, andb_false_r. reflexivity.
    + rewrite Hv. reflexivity.
    + apply Z.eqb_neq in Hv. rewrite Hv, andb_false_r. reflexivity.
  - intros w'. rewrite aht20_getData_run.
    destruct (status_ok _), (crc_ok _); cbn [andb]; try discriminate.
    destruct (ram w !! p); [discriminate | auto].
Qed.

End Control.

(** *** Rounding in binary32 *)

(** The operations of [binary32_ops] are those of [SpecFloat] with a 24-bit
    mantissa: each one computes an exact integer mantissa and rounds it to
    nearest, ties to even.  What follows bounds the error of that rounding
    from the definitions, in units of 2^-149. *)

Lemma digits2_pos_bounds (p : positive) :
  2 ^ (Z.pos (digits2_pos p) - 1) <= Z.pos p < 2 ^ Z.pos (digits2_pos p).
Proof.
  induction p as [p IH | p IH |]; cbn [digits2_pos].
  - rewrite Pos2Z.inj_succ, (Pos2Z.inj_xI p).
    set (d := Z.pos (digits2_pos p)) in *. assert (0 < d) by (subst d; lia). clearbody d.
    replace (Z.succ d - 1) with (Z.succ (d - 1)) by lia.
    rewrite (Z.pow_succ_r 2 (d - 1)) by lia. rewrite (Z.pow_succ_r 2 d) by lia. lia.
  - rewrite Pos2Z.inj_succ, (Pos2Z.inj_xO p).
    set (d := Z.pos (digits2_pos p)) in *. assert (0 < d) by (subst d; lia). clearbody d.
    replace (Z.succ d - 1) with (Z.succ (d - 1)) by lia.
    rewrite (Z.pow_succ_r 2 (d - 1)) by lia. rewrite (Z.pow_succ_r 2 d) by lia. lia.
  - cbn. lia.
Qed.

(** The number of binary digits is fixed by the interval. *)
Lemma digits2_pos_unique (p : positive) (d : Z) :
  2 ^ (d - 1) <= Z.pos p < 2 ^ d -> Z.pos (digits2_pos p) = d.
Proof.
  intros [Hlo Hhi]. pose proof (digits2_pos_bounds p) as [Blo Bhi].
  set (k := Z.pos (digits2_pos p)) in *.
  assert (0 < d).
  { destruct (Z.le_gt_cases d 0) as [Hd | Hd]; [| exact Hd].
    destruct (Z.eq_dec d 0) as [-> | Hne].
    - cbn in Hhi. lia.
    - rewrite Z.pow_neg_r in Hhi by lia. lia. }
  assert (k - 1 < d).
  { apply (Z.pow_lt_mono_r_iff 2); lia. }
  assert (d - 1 < k).
  { apply (Z.pow_lt_mono_r_iff 2); lia. }
  lia.
Qed.

Lemma iter_pos_nat {A : Type} (f : A -> A) (p : positive) :
  forall x, SpecFloat.iter_pos f p x = Nat.iter (Pos.to_nat p) f x.
Proof.
  induction p as [p IH | p IH |]; intros x; cbn [SpecFloat.iter_pos].
  - rewrite !IH, Pos2Nat.inj_xI, <- Nat.iter_succ_r, <- Nat.iter_add.
    f_equal. lia.
  - rewrite !IH, Pos2Nat.inj_xO, <- Nat.iter_add. f_equal. lia.
  - reflexivity.
Qed.

Lemma shr_ok_init (m : Z) :
  0 <= m -> shr_ok m 1 {| shr_m := m; shr_r := false; shr_s := false |}.
Proof.
  intros Hm. exists 0. cbn [shr_m shr_r shr_s].
  split; [lia |]. split; [lia |]. split; [lia |].
  split; [discriminate |]. split; [lia |]. auto.
Qed.

Lemma shr_ok_step (m P : Z) (mrs : shr_record) :
  0 < P -> shr_ok m P mrs -> shr_ok m (2 * P) (shr_1 mrs).
Proof.
  intros HP (rem & Hq & Hm & Hrem & Hr1 & Hr0 & Hs).
  destruct mrs as [q r s]. cbn [shr_m shr_r shr_s] in *.
  assert (Hs' : orb r s = false -> rem = 0).
  { intros Ho. apply orb_false_iff in Ho as [-> ->].
    specialize (Hr0 eq_refl). destruct (Hs eq_refl); lia. }
  unfold shr_ok.
  destruct q as [| q | q]; [| destruct q as [q | q |] |]; cbn [shr_1 shr_m shr_r shr_s].
  - exists rem.
    split; [lia |]. split; [lia |]. split; [lia |].
    split; [discriminate |]. split; [lia |].
    intros Ho. left. auto.
  - exists (rem + P). rewrite (Pos2Z.inj_xI q) in Hm.
    split; [lia |]. split; [lia |]. split; [lia |].
    split; [lia |]. split; [discriminate |].
    intros Ho. right. rewrite (Hs' Ho). lia.
  - exists rem. rewrite (Pos2Z.inj_xO q) in Hm.
    split; [lia |]. split; [lia |]. split; [lia |].
    split; [discriminate |]. split; [lia |].
    intros Ho. left. auto.
  - exists (rem + P).
    split; [lia |]. split; [lia |]. split; [lia |].
    split; [lia |]. split; [discriminate |].
    intros Ho. right. rewrite (Hs' Ho). lia.
  - lia.
Qed.

Lemma shr_ok_iter (m : Z) (k : nat) :
  0 <= m ->
  shr_ok m (2 ^ Z.of_nat k)
    (Nat.iter k shr_1 {| shr_m := m; shr_r := false; shr_s := false |}).
Proof.
  intros Hm. induction k as [| k IH].
  - apply shr_ok_init, Hm.
  - rewrite Nat2Z.inj_succ, Z.pow_succ_r by lia. rewrite Nat.iter_succ.
    apply shr_ok_step; [lia | exact IH].
Qed.

Lemma round_nearest_even_ok (m P : Z) (mrs : shr_record) :
  0 < P -> shr_ok m P mrs ->
  shr_m mrs <= round_nearest_even (shr_m mrs) (loc_of_shr_record mrs) <= shr_m mrs + 1
  /\ 2 * Z.abs (round_nearest_even (shr_m mrs) (loc_of_shr_record mrs) * P - m) <= P.
Proof.
  intros HP (rem & Hq & Hm & Hrem & Hr1 & Hr0 & Hs).
  destruct mrs as [q [|] [|]]; cbn [shr_m shr_r shr_s loc_of_shr_record round_nearest_even] in *.
  - specialize (Hr1 eq_refl). lia.
  - specialize (Hr1 eq_refl). destruct (Hs eq_refl) as [Hz | Hh]; [lia |].
    destruct (Z.even q); lia.
  - specialize (Hr0 eq_refl). lia.
  - specialize (Hr0 eq_refl). lia.
Qed.

Lemma fexp_normal (x : Z) : -125 <= x -> fexp 24 128 x = x - 24.
Proof. unfold fexp, emin. lia. Qed.

Lemma shr_nonpos (mrs : shr_record) (e n : Z) : n <= 0 -> shr mrs e n = (mrs, e).
Proof. destruct n; [reflexivity | lia | reflexivity]. Qed.

Lemma shr_pos (m : positive) (e n : Z) :
  0 < n ->
  exists mrs,
    shr {| shr_m := Z.pos m; shr_r := false; shr_s := false |} e n = (mrs, e + n)
    /\ shr_ok (Z.pos m) (2 ^ n) mrs.
Proof.
  intros Hn. destruct n as [| p | p]; try lia. cbn [shr].
  eexists. split; [reflexivity |].
  rewrite iter_pos_nat, <- (positive_nat_Z p).
  apply shr_ok_iter. lia.
Qed.

(** Rounding a positive mantissa to 24 bits, away from underflow and
    overflow: the result is finite, its exponent is not below the given
    one, and it is within half a unit of the last place kept. *)
Lemma binary_round_aux_spec (s : bool) (m : positive) (e : Z) :
  -125 <= Z.pos (digits2_pos m) + e <= 100 ->
  e <= 100 ->
  exists m2 e2,
    binary_round_aux 24 128 s (Z.pos m) e loc_Exact = S754_finite s m2 e2
    /\ e <= e2 <= e + Z.max 0 (Z.pos (digits2_pos m) - 24) + 1
    /\ 2 * Z.abs (Z.pos m2 * 2 ^ (e2 - e) - Z.pos m)
       <= 2 ^ Z.max 0 (Z.pos (digits2_pos m) - 24).
Proof.
  intros Hd He.
  pose proof (digits2_pos_bounds m) as Hm.
  unfold binary_round_aux, shr_fexp. cbn [Zdigits2 shr_record_of_loc].
  remember (Z.pos (digits2_pos m)) as d eqn:Ed.
  assert (0 < d) by lia.
  rewrite (fexp_normal (d + e)) by lia.
  replace (d + e - 24 - e) with (d - 24) by lia.
  destruct (Z.le_gt_cases d 24) as [Hsmall | Hbig].
  - rewrite !shr_nonpos by lia.
    cbn [shr_m loc_of_shr_record round_nearest_even shr_record_of_loc Zdigits2].
    rewrite <- Ed. rewrite (fexp_normal (d + e)) by lia.
    replace (d + e - 24 - e) with (d - 24) by lia.
    rewrite shr_nonpos by lia. cbn [shr_m].
    replace (e <=? 128 - 24) with true by (symmetry; apply Z.leb_le; lia).
    exists m, e. split; [reflexivity |].
    rewrite Z.max_l by lia. rewrite Z.sub_diag. cbn. lia.
  - destruct (shr_pos m e (d - 24)) as (mrs & -> & Hok); [lia |].
    set (n := d - 24) in *.
    assert (HP : 0 < 2 ^ n) by (apply Z.pow_pos_nonneg; lia).
    pose proof (round_nearest_even_ok _ _ _ HP Hok) as [Hm' Herr].
    set (m' := round_nearest_even (shr_m mrs) (loc_of_shr_record mrs)) in *.
    destruct Hok as (rem & Hq & Hmq & Hrem & _).
    assert (Hd1 : 2 ^ (d - 1) = 2 ^ 23 * 2 ^ n).
    { rewrite <- Z.pow_add_r by lia. f_equal. lia. }
    assert (Hd2 : 2 ^ d = 2 ^ 24 * 2 ^ n).
    { rewrite <- Z.pow_add_r by lia. f_equal. lia. }
    rewrite Hd1, Hd2 in Hm.
    assert (Hqb : 2 ^ 23 <= shr_m mrs < 2 ^ 24) by nia.
    rewrite Z.max_r by lia.
    destruct m' as [| pm' | pm'] eqn:Em'; try lia.
    destruct (Z.eq_dec (Z.pos pm') (2 ^ 24)) as [Ecarry | Enc].
    + assert (pm' = 16777216%positive) by (apply Pos2Z.inj; exact Ecarry).
      subst pm'. cbn [Zdigits2 shr_record_of_loc].
      change (Z.pos (digits2_pos 16777216)) with 25.
      rewrite (fexp_normal (25 + (e + n))) by lia.
      replace (25 + (e + n) - 24 - (e + n)) with 1 by lia.
      cbn [shr SpecFloat.iter_pos shr_1 shr_m].
      replace (e + n + 1 <=? 128 - 24) with true by (symmetry; apply Z.leb_le; lia).
      eexists. eexists. split; [reflexivity |].
      split; [lia |].
      replace (e + n + 1 - e) with (Z.succ n) by lia.
      rewrite Z.pow_succ_r by lia.
      rewrite Ecarry in Herr. lia.
    + assert (Hdig : Z.pos (digits2_pos pm') = 24).
      { apply digits2_pos_unique. change (24 - 1) with 23. lia. }
      cbn [Zdigits2 shr_record_of_loc]. rewrite Hdig.
      rewrite (fexp_normal (24 + (e + n))) by lia.
      replace (24 + (e + n) - 24 - (e + n)) with 0 by lia.
      cbn [shr shr_m].
      replace (e + n <=? 128 - 24) with true by (symmetry; apply Z.leb_le; lia).
      exists pm', (e + n). split; [reflexivity |].
      split; [lia |].
      replace (e + n - e) with n by lia. exact Herr.
Qed.

Lemma pow2_pos (n : Z) : 0 <= n -> 0 < 2 ^ n.
Proof. intros Hn. apply Z.pow_pos_nonneg; lia. Qed.

Lemma pow2_split (a b : Z) : 0 <= a -> 0 <= b -> 2 ^ (a + b) = 2 ^ a * 2 ^ b.
Proof. intros Ha Hb. apply Z.pow_add_r; assumption. Qed.

Lemma pow2_lt_exp (a b : Z) : 0 <= b -> 2 ^ a < 2 ^ b -> a < b.
Proof. intros Hb Hlt. apply (Z.pow_lt_mono_r_iff 2); [lia | exact Hb | exact Hlt]. Qed.

Lemma pow2_le_mono (a b : Z) : 0 <= a <= b -> 2 ^ a <= 2 ^ b.
Proof. intros Hab. apply Z.pow_le_mono_r; lia. Qed.

(** A mantissa whose value is below 2^B has at most B - e digits. *)
Lemma digits_below (m : positive) (e B : Z) :
  -149 <= e -> -149 <= B ->
  Z.pos m * 2 ^ (e + 149) < 2 ^ (B + 149) ->
  Z.pos (digits2_pos m) + e <= B.
Proof.
  intros He HB Hv.
  pose proof (digits2_pos_bounds m) as [Hlo _].
  set (d := Z.pos (digits2_pos m)) in *.
  assert (0 < d) by (subst d; lia).
  pose proof (pow2_pos (e + 149) ltac:(lia)) as HU.
  assert (Hlt : 2 ^ (d - 1 + (e + 149)) < 2 ^ (B + 149)).
  { rewrite pow2_split by lia. nia. }
  apply pow2_lt_exp in Hlt; lia.
Qed.

(** The rounding of [binary_round_aux], in units. *)
Lemma binary_round_aux_units (s : bool) (m : positive) (e B : Z) :
  -149 <= e <= 100 -> -125 <= Z.pos (digits2_pos m) + e -> B <= 100 ->
  Z.pos m * 2 ^ (e + 149) < 2 ^ (B + 149) ->
  exists m2 e2,
    binary_round_aux 24 128 s (Z.pos m) e loc_Exact = S754_finite s m2 e2
    /\ e <= e2 <= Z.max e (B - 24) + 1
    /\ Z.abs (Z.pos m2 * 2 ^ (e2 + 149) - Z.pos m * 2 ^ (e + 149)) <= 2 ^ (B + 124).
Proof.
  intros He Hnorm HB Hv.
  assert (HBlo : -149 <= B).
  { destruct (Z.le_gt_cases (-149) B) as [Hle | Hgt]; [exact Hle |].
    rewrite (Z.pow_neg_r 2 (B + 149)) in Hv by lia.
    pose proof (pow2_pos (e + 149) ltac:(lia)). nia. }
  pose proof (digits_below m e B ltac:(lia) HBlo Hv) as Hde.
  set (d := Z.pos (digits2_pos m)) in *.
  assert (Hd : 0 < d) by (subst d; lia).
  destruct (binary_round_aux_spec s m e) as (m2 & e2 & Hr & He2 & Herr).
  { fold d. lia. }
  { lia. }
  fold d in He2, Herr.
  exists m2, e2. split; [exact Hr |]. split; [lia |].
  pose proof (pow2_pos (e + 149) ltac:(lia)) as HU.
  replace (e2 + 149) with ((e2 - e) + (e + 149)) by lia.
  rewrite pow2_split by lia.
  set (U := 2 ^ (e + 149)) in *.
  set (A := Z.pos m2 * 2 ^ (e2 - e) - Z.pos m) in *.
  replace (Z.pos m2 * (2 ^ (e2 - e) * U) - Z.pos m * U) with (A * U) by (subst A; ring).
  rewrite Z.abs_mul, (Z.abs_eq U) by lia.
  destruct (Z.le_gt_cases d 24) as [Hsmall | Hbig].
  - rewrite Z.max_l in Herr by lia. change (2 ^ 0) with 1 in Herr.
    assert (Z.abs A = 0) by lia.
    pose proof (Z.pow_nonneg 2 (B + 124) ltac:(lia)). nia.
  - rewrite Z.max_r in Herr by lia.
    replace (d - 24) with (Z.succ (d - 25)) in Herr by lia.
    rewrite Z.pow_succ_r in Herr by lia.
    assert (HA : Z.abs A <= 2 ^ (d - 25)) by lia.
    assert (Hle : 2 ^ (d - 25) * U <= 2 ^ (B + 124)).
    { subst U. rewrite <- pow2_split by lia. apply pow2_le_mono. lia. }
    pose proof (pow2_pos (d - 25) ltac:(lia)).
    pose proof (Z.abs_nonneg A). nia.
Qed.

Lemma iter_xO_value (m d : positive) :
  Z.pos (Pos.iter xO m d) = Z.pos m * 2 ^ Z.pos d.
Proof.
  induction d as [| d IH] using Pos.peano_ind.
  - cbn [Pos.iter]. rewrite (Pos2Z.inj_xO m). change (2 ^ 1) with 2. lia.
  - rewrite Pos.iter_succ, (Pos2Z.inj_xO (Pos.iter xO m d)), IH.
    rewrite Pos2Z.inj_succ, Z.pow_succ_r by lia. ring.
Qed.

(** Aligning a mantissa to a lower exponent keeps the value. *)
Lemma shl_align_spec (m : positive) (e e' : Z) :
  snd (shl_align m e e') = Z.min e e'
  /\ Z.pos (fst (shl_align m e e')) = Z.pos m * 2 ^ (e - Z.min e e').
Proof.
  unfold shl_align. destruct (e' - e) as [| p | p] eqn:E; cbn [fst snd].
  - rewrite Z.min_l by lia. rewrite Z.sub_diag. cbn. lia.
  - rewrite Z.min_l by lia. rewrite Z.sub_diag. cbn. lia.
  - rewrite Z.min_r by lia. split; [reflexivity |].
    rewrite iter_xO_value. f_equal. f_equal. lia.
Qed.

(** The rounding of [binary_round], which first aligns a short mantissa,
    in units. *)
Lemma binary_round_units (s : bool) (m : positive) (e B : Z) :
  -125 <= e <= 100 -> B <= 100 ->
  Z.pos m * 2 ^ (e + 149) < 2 ^ (B + 149) ->
  exists m2 e2,
    binary_round 24 128 s m e = S754_finite s m2 e2
    /\ e - 23 <= e2 <= Z.max e (B - 24) + 1
    /\ Z.abs (Z.pos m2 * 2 ^ (e2 + 149) - Z.pos m * 2 ^ (e + 149)) <= 2 ^ (B + 124).
Proof.
  intros He HB Hv.
  assert (HBlo : -149 <= B).
  { destruct (Z.le_gt_cases (-149) B) as [Hle | Hgt]; [exact Hle |].
    rewrite (Z.pow_neg_r 2 (B + 149)) in Hv by lia.
    pose proof (pow2_pos (e + 149) ltac:(lia)). nia. }
  pose proof (digits_below m e B ltac:(lia) HBlo Hv) as Hde.
  unfold binary_round.
  remember (Z.pos (digits2_pos m)) as d eqn:Ed.
  assert (Hd : 0 < d) by lia.
  rewrite (fexp_normal (d + e)) by lia.
  pose proof (shl_align_spec m e (d + e - 24)) as [Hez Hmz].
  destruct (shl_align m e (d + e - 24)) as [mz ez]. cbn [fst snd] in Hez, Hmz.
  assert (Hs0 : 0 <= e - ez) by lia.
  assert (Hvz : Z.pos mz * 2 ^ (ez + 149) = Z.pos m * 2 ^ (e + 149)).
  { rewrite Hmz, <- Hez. replace (e + 149) with ((e - ez) + (ez + 149)) by lia.
    rewrite (pow2_split (e - ez) (ez + 149)) by lia. ring. }
  assert (Hdz : Z.pos (digits2_pos mz) = d + (e - ez)).
  { apply digits2_pos_unique. rewrite Hmz, <- Hez.
    pose proof (digits2_pos_bounds m) as Hb. rewrite <- Ed in Hb.
    pose proof (pow2_pos (e - ez) Hs0).
    replace (d + (e - ez) - 1) with ((d - 1) + (e - ez)) by lia.
    rewrite (pow2_split (d - 1) (e - ez)), (pow2_split d (e - ez)) by lia. nia. }
  destruct (binary_round_aux_units s mz ez B) as (m2 & e2 & Hr & He2 & Herr).
  { lia. }
  { lia. }
  { exact HB. }
  { rewrite Hvz. exact Hv. }
  exists m2, e2. split; [exact Hr |]. split; [lia |].
  rewrite <- Hvz. exact Herr.
Qed.

(** The same for a signed integer: [binary_normalize]. *)
Lemma binary_normalize_units (z e B : Z) :
  -125 <= e <= 100 -> B <= 100 ->
  Z.abs z * 2 ^ (e + 149) < 2 ^ (B + 149) ->
  sf_finite (binary_normalize 24 128 z e false) = true
  /\ Z.abs (units (binary_normalize 24 128 z e false) - z * 2 ^ (e + 149))
     <= 2 ^ (B + 124).
Proof.
  intros He HB Hv.
  assert (HBlo : -149 <= B).
  { destruct (Z.le_gt_cases (-149) B) as [Hle | Hgt]; [exact Hle |].
    rewrite (Z.pow_neg_r 2 (B + 149)) in Hv by lia.
    pose proof (pow2_pos (e + 149) ltac:(lia)). pose proof (Z.abs_nonneg z). nia. }
  pose proof (Z.pow_nonneg 2 (B + 124) ltac:(lia)) as HE.
  destruct z as [| p | p]; cbn [binary_normalize].
  - cbn. lia.
  - destruct (binary_round_units false p e B He HB Hv) as (m2 & e2 & -> & He2 & Herr).
    cbn [sf_finite units cond_Zopp]. split; [apply Z.leb_le; lia | exact Herr].
  - destruct (binary_round_units true p e B He HB Hv) as (m2 & e2 & -> & He2 & Herr).
    cbn [sf_finite units cond_Zopp]. split; [apply Z.leb_le; lia |].
    rewrite <- Z.abs_opp.
    replace (- (- Z.pos m2 * 2 ^ (e2 + 149) - Z.neg p * 2 ^ (e + 149)))
      with (Z.pos m2 * 2 ^ (e2 + 149) - Z.pos p * 2 ^ (e + 149))
      by (rewrite <- (Pos2Z.opp_pos p); ring).
    exact Herr.
Qed.

(** A mantissa of at most 24 digits is not rounded at all. *)
Lemma binary_round_exact (s : bool) (m : positive) (e : Z) :
  -125 <= e <= 76 ->
  Z.pos (digits2_pos m) <= 24 ->
  exists m2 e2,
    binary_round 24 128 s m e = S754_finite s m2 e2
    /\ e - 23 <= e2 <= e + 1
    /\ Z.pos m2 * 2 ^ (e2 + 149) = Z.pos m * 2 ^ (e + 149).
Proof.
  intros He Hsmall. unfold binary_round.
  remember (Z.pos (digits2_pos m)) as d eqn:Ed.
  assert (Hd : 0 < d) by lia.
  rewrite (fexp_normal (d + e)) by lia.
  pose proof (shl_align_spec m e (d + e - 24)) as [Hez Hmz].
  destruct (shl_align m e (d + e - 24)) as [mz ez]. cbn [fst snd] in Hez, Hmz.
  rewrite Z.min_r in Hez, Hmz by lia. subst ez.
  replace (e - (d + e - 24)) with (24 - d) in Hmz by lia.
  assert (Hdz : Z.pos (digits2_pos mz) = 24).
  { apply digits2_pos_unique. rewrite Hmz.
    pose proof (digits2_pos_bounds m) as Hb. rewrite <- Ed in Hb.
    pose proof (pow2_pos (24 - d) ltac:(lia)).
    assert (E1 : 2 ^ (24 - 1) = 2 ^ (d - 1) * 2 ^ (24 - d))
      by (rewrite <- pow2_split by lia; f_equal; lia).
    assert (E2 : 2 ^ 24 = 2 ^ d * 2 ^ (24 - d))
      by (rewrite <- pow2_split by lia; f_equal; lia).
    rewrite E1, E2. split.
    - apply Z.mul_le_mono_nonneg_r; lia.
    - apply Z.mul_lt_mono_pos_r; lia. }
  destruct (binary_round_aux_spec s mz (d + e - 24)) as (m2 & e2 & Hr & He2 & Herr).
  { rewrite Hdz. lia. }
  { lia. }
  rewrite Hdz in He2, Herr. change (Z.max 0 (24 - 24)) with 0 in He2, Herr.
  change (2 ^ 0) with 1 in Herr.
  exists m2, e2. split; [exact Hr |]. split; [lia |].
  assert (Heq : Z.pos m2 * 2 ^ (e2 - (d + e - 24)) = Z.pos mz) by lia.
  replace (e2 + 149) with ((e2 - (d + e - 24)) + (d + e + 125)) by lia.
  replace (e + 149) with ((24 - d) + (d + e + 125)) by lia.
  rewrite (pow2_split (e2 - (d + e - 24)) (d + e + 125)) by lia.
  rewrite (pow2_split (24 - d) (d + e + 125)) by lia.
  rewrite Z.mul_assoc, Heq, Hmz. ring.
Qed.

(** [b32_of_Z] converts a 24-bit unsigned integer without error. *)
Lemma b32_of_Z_exact (t : Z) :
  0 < t < 2 ^ 24 ->
  exists mx ex,
    b32_of_Z t = S754_finite false mx ex
    /\ -23 <= ex <= 1
    /\ Z.pos mx * 2 ^ (ex + 149) = t * 2 ^ 149.
Proof.
  intros Ht. destruct t as [| p | p]; try lia.
  unfold b32_of_Z. cbn [binary_normalize].
  destruct (binary_round_exact false p 0) as (mx & ex & Hr & Hex & Hv).
  { lia. }
  { pose proof (digits2_pos_bounds p) as [Hlo _].
    assert (Z.pos (digits2_pos p) - 1 < 24); [| lia].
    apply pow2_lt_exp; lia. }
  exists mx, ex. split; [exact Hr |]. split; [lia | exact Hv].
Qed.

(** The product of two finite numbers is the exact product rounded. *)
Lemma SFmul_units (sx sy : bool) (mx my : positive) (ex ey B : Z) :
  -124 <= ex + ey <= 100 -> B <= 100 ->
  Z.pos mx * Z.pos my * 2 ^ (ex + ey + 149) < 2 ^ (B + 149) ->
  exists m2 e2,
    SFmul 24 128 (S754_finite sx mx ex) (S754_finite sy my ey)
      = S754_finite (xorb sx sy) m2 e2
    /\ ex + ey <= e2 <= Z.max (ex + ey) (B - 24) + 1
    /\ Z.abs (Z.pos m2 * 2 ^ (e2 + 149) - Z.pos mx * Z.pos my * 2 ^ (ex + ey + 149))
       <= 2 ^ (B + 124).
Proof.
  intros He HB Hv. cbn [SFmul].
  rewrite <- Pos2Z.inj_mul in Hv |- *.
  apply binary_round_aux_units; [lia | | exact HB | exact Hv].
  pose proof (Pos2Z.is_pos (digits2_pos (mx * my))). lia.
Qed.

(** The difference of two finite numbers is the exact difference rounded. *)
Lemma SFsub_units (sx sy : bool) (mx my : positive) (ex ey B : Z) :
  -125 <= ex <= 100 -> -125 <= ey <= 100 -> B <= 100 ->
  Z.abs (units (S754_finite sx mx ex) - units (S754_finite sy my ey)) < 2 ^ (B + 149) ->
  sf_finite (SFsub 24 128 (S754_finite sx mx ex) (S754_finite sy my ey)) = true
  /\ Z.abs (units (SFsub 24 128 (S754_finite sx mx ex) (S754_finite sy my ey))
            - (units (S754_finite sx mx ex) - units (S754_finite sy my ey)))
     <= 2 ^ (B + 124).
Proof.
  intros Hex Hey HB Hv. cbn [SFsub].
  set (ez := Z.min ex ey).
  pose proof (shl_align_spec mx ex ez) as [_ Ha].
  pose proof (shl_align_spec my ey ez) as [_ Hb].
  replace (Z.min ex ez) with ez in Ha by (subst ez; lia).
  replace (Z.min ey ez) with ez in Hb by (subst ez; lia).
  set (a := fst (shl_align mx ex ez)) in *.
  set (b := fst (shl_align my ey ez)) in *.
  set (z := cond_Zopp sx (Z.pos a) - cond_Zopp sy (Z.pos b)).
  assert (Hz : z * 2 ^ (ez + 149)
               = units (S754_finite sx mx ex) - units (S754_finite sy my ey)).
  { cbn [units]. subst z.
    replace (ex + 149) with ((ex - ez) + (ez + 149)) by lia.
    replace (ey + 149) with ((ey - ez) + (ez + 149)) by lia.
    rewrite (pow2_split (ex - ez) (ez + 149)), (pow2_split (ey - ez) (ez + 149))
      by (subst ez; lia).
    destruct sx, sy; cbn [cond_Zopp]; rewrite Ha, Hb; ring. }
  rewrite <- Hz in Hv |- *.
  apply binary_normalize_units; [subst ez; lia | exact HB |].
  rewrite Z.abs_mul in Hv.
  rewrite (Z.abs_eq (2 ^ (ez + 149))) in Hv by (apply Z.pow_nonneg; lia).
  exact Hv.
Qed.

(** *** The two conversions on binary32 *)

Lemma binary32_Temp_factor :
  __AHT20_Temp_factor (F := spec_float) = S754_finite false 13107209 (-36).
Proof. vm_compute. reflexivity. Qed.

Lemma binary32_Humi_factor :
  __AHT20_Humi_factor (F := spec_float) = S754_finite false 13107141 (-37).
Proof. vm_compute. reflexivity. Qed.

Lemma binary32_Temp_const :
  __AHT20_Temp_const (F := spec_float) = S754_finite false 13107200 (-18).
Proof. vm_compute. reflexivity. Qed.

(** Line 187 on binary32: the raw value is converted, multiplied by the
    binary32 number nearest to 190.735e-6 and 50 is subtracted. *)
Lemma conv_Temp_binary32 (t : Z) :
  conv_Temp (F := spec_float) t =
    SFsub 24 128
      (SFmul 24 128 (b32_of_Z t) (S754_finite false 13107209 (-36)))
      (S754_finite false 13107200 (-18)).
Proof.
  unfold conv_Temp. rewrite binary32_Temp_factor, binary32_Temp_const. reflexivity.
Qed.

(** Line 195 on binary32: the raw value is converted and multiplied by the
    binary32 number nearest to 95.367e-6. *)
Lemma conv_Humi_binary32 (h : Z) :
  conv_Humi (F := spec_float) h =
    SFmul 24 128 (b32_of_Z h) (S754_finite false 13107141 (-37)).
Proof. unfold conv_Humi. rewrite binary32_Humi_factor. reflexivity. Qed.

(** The product of a positive 20-bit raw value and a 24-bit constant with
    exponent [ec], in units. *)
Lemma raw_times_constant (t : Z) (c : positive) (ec B : Z) :
  0 < t < 2 ^ 20 ->
  -87 <= ec <= 0 -> B <= 100 ->
  t * Z.pos c * 2 ^ (ec + 149) < 2 ^ (B + 149) ->
  exists m2 e2,
    SFmul 24 128 (b32_of_Z t) (S754_finite false c ec) = S754_finite false m2 e2
    /\ -125 <= e2 <= Z.max (ec + 1) (B - 24) + 1
    /\ Z.abs (Z.pos m2 * 2 ^ (e2 + 149) - t * Z.pos c * 2 ^ (ec + 149)) <= 2 ^ (B + 124).
Proof.
  intros Ht Hec HB Hv.
  destruct (b32_of_Z_exact t) as (mx & ex & -> & Hex & Hx).
  { change (2 ^ 24) with 16777216. change (2 ^ 20) with 1048576 in Ht. lia. }
  assert (Hval : Z.pos mx * Z.pos c * 2 ^ (ex + ec + 149) = t * Z.pos c * 2 ^ (ec + 149)).
  { destruct (Z.le_gt_cases 0 ex) as [Hpos | Hneg].
    - replace (ex + ec + 149) with (ex + (ec + 149)) by lia.
      replace (ex + 149) with (ex + 149) in Hx by lia.
      rewrite (pow2_split ex (ec + 149)) by lia.
      rewrite (pow2_split ex 149) in Hx by lia.
      pose proof (pow2_pos 149 ltac:(lia)).
      assert (Z.pos mx * 2 ^ ex = t) by nia.
      nia.
    - replace (ec + 149) with ((- ex) + (ex + ec + 149)) by lia.
      rewrite (pow2_split (- ex) (ex + ec + 149)) by lia.
      replace 149 with ((- ex) + (ex + 149)) in Hx at 2 by lia.
      rewrite (pow2_split (- ex) (ex + 149)) in Hx by lia.
      pose proof (pow2_pos (ex + 149) ltac:(lia)).
      assert (Z.pos mx = t * 2 ^ (- ex)) by nia.
      nia. }
  destruct (SFmul_units false false mx c ex ec B) as (m2 & e2 & Hr & He2 & Herr).
  { lia. }
  { exact HB. }
  { rewrite Hval. exact Hv. }
  exists m2, e2. split; [exact Hr |]. split; [lia |].
  rewrite <- Hval. exact Herr.
Qed.

(** The humidity conversion, in units of 2^-149: the exact product of the
    raw value and the constant, up to 2^-18. *)
Lemma conv_Humi_units (h : Z) :
  0 <= h < 2 ^ 20 ->
  sf_finite (conv_Humi (F := spec_float) h) = true
  /\ 0 <= units (conv_Humi (F := spec_float) h)
  /\ Z.abs (units (conv_Humi (F := spec_float) h) - h * 13107141 * 2 ^ 112) <= 2 ^ 131.
Proof.
  intros Hh. rewrite conv_Humi_binary32.
  destruct (Z.eq_dec h 0) as [-> | Hnz].
  { vm_compute. repeat split; discriminate. }
  destruct (raw_times_constant h 13107141 (-37) 7) as (m2 & e2 & -> & He2 & Herr).
  { lia. }
  { lia. }
  { lia. }
  { change (2 ^ 20) with 1048576 in Hh.
    change (2 ^ (-37 + 149)) with (2 ^ 112). change (2 ^ (7 + 149)) with (2 ^ 156).
    assert (E : 2 ^ 156 = 1048576 * 16777216 * 2 ^ 112) by reflexivity.
    rewrite E. pose proof (pow2_pos 112 ltac:(lia)). nia. }
  cbn [sf_finite units cond_Zopp].
  change (2 ^ (-37 + 149)) with (2 ^ 112) in Herr.
  change (2 ^ (7 + 124)) with (2 ^ 131) in Herr.
  split; [apply Z.leb_le; lia |].
  split; [| exact Herr].
  pose proof (pow2_pos (e2 + 149) ltac:(lia)). nia.
Qed.

(** The temperature conversion, in units of 2^-149: the exact value of
    raw * constant - 50, up to 2^-16 for the two roundings. *)
Lemma conv_Temp_units (t : Z) :
  0 <= t < 2 ^ 20 ->
  sf_finite (conv_Temp (F := spec_float) t) = true
  /\ - (50 * 2 ^ 149) <= units (conv_Temp (F := spec_float) t)
  /\ Z.abs (units (conv_Temp (F := spec_float) t)
            - (t * 13107209 * 2 ^ 113 - 50 * 2 ^ 149)) <= 2 ^ 133.
Proof.
  intros Ht. rewrite conv_Temp_binary32.
  destruct (Z.eq_dec t 0) as [-> | Hnz].
  { vm_compute. repeat split; discriminate. }
  destruct (raw_times_constant t 13107209 (-36) 8) as (m2 & e2 & -> & He2 & Herr).
  { lia. }
  { lia. }
  { lia. }
  { change (2 ^ 20) with 1048576 in Ht.
    change (2 ^ (-36 + 149)) with (2 ^ 113). change (2 ^ (8 + 149)) with (2 ^ 157).
    assert (E : 2 ^ 157 = 1048576 * 16777216 * 2 ^ 113) by reflexivity.
    rewrite E. pose proof (pow2_pos 113 ltac:(lia)). nia. }
  change (2 ^ (-36 + 149)) with (2 ^ 113) in Herr.
  change (2 ^ (8 + 124)) with (2 ^ 132) in Herr.
  assert (E157 : 2 ^ 157 = 1048576 * 16777216 * 2 ^ 113) by reflexivity.
  assert (E149 : 2 ^ 149 = 4096 * 16777216 * 2 ^ 113) by reflexivity.
  assert (E133 : 2 ^ 133 = 1048576 * 2 ^ 113) by reflexivity.
  assert (E132 : 2 ^ 132 = 524288 * 2 ^ 113) by reflexivity.
  assert (E131 : 2 ^ 131 = 262144 * 2 ^ 113) by reflexivity.
  pose proof (pow2_pos 113 ltac:(lia)) as H113.
  change (2 ^ 20) with 1048576 in Ht.
  destruct (SFsub_units false false m2 13107200 e2 (-18) 8) as [Hfin Hsub].
  { lia. }
  { lia. }
  { lia. }
  { cbn [units cond_Zopp]. change (2 ^ (-18 + 149)) with (2 ^ 131).
    change (2 ^ (8 + 149)) with (2 ^ 157).
    rewrite E157, E131. rewrite E132 in Herr. nia. }
  split; [exact Hfin |].
  cbn [units cond_Zopp] in Hsub. change (2 ^ (-18 + 149)) with (2 ^ 131) in Hsub.
  change (2 ^ (8 + 124)) with (2 ^ 132) in Hsub.
  rewrite E131, E132 in Hsub. rewrite E132 in Herr. rewrite E149, E133.
  split; nia.
Qed.

(** *** From units to rationals *)

Lemma Qpower2_units (e : Z) :
  -149 <= e ->
  (Qpower (2 # 1) e == Qmake (2 ^ (e + 149)) (2 ^ 149)%positive)%Q.
Proof.
  intros He.
  replace e with ((e + 149) + (-149)) at 1 by lia.
  rewrite Qpower_plus by discriminate.
  change (2 # 1)%Q with (inject_Z 2).
  rewrite <- Zpower_Qpower by lia.
  assert (E : (inject_Z 2 ^ (-149) == Qmake 1 (2 ^ 149)%positive)%Q)
    by (vm_compute; reflexivity).
  rewrite E. unfold Qeq, Qmult, inject_Z. cbn [Qnum Qden]. lia.
Qed.

(** The rational a finite binary32 number stands for is its number of
    units over 2^149. *)
Lemma SF2Q_units (x : spec_float) :
  sf_finite x = true ->
  (SF2Q x == Qmake (units x) (2 ^ 149)%positive)%Q.
Proof.
  destruct x as [s | s | | s m e]; cbn [sf_finite SF2Q units]; try discriminate.
  - intros _. reflexivity.
  - intros He. apply Z.leb_le in He.
    rewrite (Qpower2_units e He).
    unfold Qeq, Qmult, inject_Z. cbn [Qnum Qden]. lia.
Qed.

Lemma temperature_C_frac (t : Z) :
  (temperature_C t == Qmake (t * 200 - 52428800) 1048576)%Q.
Proof.
  unfold temperature_C.
  change ((200 # 1) / inject_Z (2 ^ 20))%Q with (Qmake 200 1048576).
  unfold Qeq, Qminus, Qplus, Qopp, Qmult, inject_Z. cbn [Qnum Qden]. lia.
Qed.

Lemma humidity_pct_frac (h : Z) :
  (humidity_pct h == Qmake (h * 100) 1048576)%Q.
Proof.
  unfold humidity_pct.
  change ((100 # 1) / inject_Z (2 ^ 20))%Q with (Qmake 100 1048576).
  unfold Qeq, Qmult, inject_Z. cbn [Qnum Qden]. lia.
Qed.

Lemma conv_Temp_Q (t : Z) :
  0 <= t < 2 ^ 20 ->
  sf_finite (conv_Temp (F := spec_float) t) = true
  /\ (- (50 # 1) <= SF2Q (conv_Temp (F := spec_float) t))%Q
  /\ (SF2Q (conv_Temp (F := spec_float) t) < 150 # 1)%Q
  /\ (Qabs (SF2Q (conv_Temp (F := spec_float) t) - temperature_C t) <= 16 # 100000)%Q.
Proof.
  intros Ht. destruct (conv_Temp_units t Ht) as (Hfin & Hlo & Herr).
  split; [exact Hfin |].
  rewrite temperature_C_frac, (SF2Q_units _ Hfin).
  set (u := units (conv_Temp (F := spec_float) t)) in *.
  change (2 ^ 20) with 1048576 in Ht.
  assert (E149 : 2 ^ 149 = 4096 * 16777216 * 2 ^ 113) by reflexivity.
  assert (E133 : 2 ^ 133 = 1048576 * 2 ^ 113) by reflexivity.
  assert (EK : Z.pos (2 ^ 149)%positive = 4096 * 16777216 * 2 ^ 113) by reflexivity.
  pose proof (pow2_pos 113 ltac:(lia)) as HX.
  rewrite E149 in Hlo, Herr. rewrite E133 in Herr.
  set (X := 2 ^ 113) in *.
  split; [| split].
  - unfold Qle, Qopp. cbn [Qnum Qden]. rewrite EK. nia.
  - unfold Qlt. cbn [Qnum Qden]. rewrite EK. nia.
  - apply Qabs_Qle_condition.
    unfold Qle, Qminus, Qplus, Qopp. cbn [Qnum Qden].
    rewrite !Pos2Z.inj_mul, EK. split; nia.
Qed.

Lemma conv_Humi_Q (h : Z) :
  0 <= h < 2 ^ 20 ->
  sf_finite (conv_Humi (F := spec_float) h) = true
  /\ (0 <= SF2Q (conv_Humi (F := spec_float) h))%Q
  /\ (SF2Q (conv_Humi (F := spec_float) h) < 100 # 1)%Q
  /\ (Qabs (SF2Q (conv_Humi (F := spec_float) h) - humidity_pct h) <= 5 # 10000)%Q.
Proof.
  intros Hh. destruct (conv_Humi_units h Hh) as (Hfin & Hlo & Herr).
  split; [exact Hfin |].
  rewrite humidity_pct_frac, (SF2Q_units _ Hfin).
  set (u := units (conv_Humi (F := spec_float) h)) in *.
  change (2 ^ 20) with 1048576 in Hh.
  assert (E131 : 2 ^ 131 = 524288 * 2 ^ 112) by reflexivity.
  assert (EK : Z.pos (2 ^ 149)%positive = 8192 * 16777216 * 2 ^ 112) by reflexivity.
  pose proof (pow2_pos 112 ltac:(lia)) as HX.
  rewrite E131 in Herr.
  set (X := 2 ^ 112) in *.
  split; [| split].
  - unfold Qle. cbn [Qnum Qden]. lia.
  - unfold Qlt. cbn [Qnum Qden]. rewrite EK. nia.
  - apply Qabs_Qle_condition.
    unfold Qle, Qminus, Qplus, Qopp. cbn [Qnum Qden].
    rewrite !Pos2Z.inj_mul, EK. split; nia.
Qed.

(** Comparing two finite numbers is comparing their units. *)
Lemma SF2Q_lt_units (x y : spec_float) :
  sf_finite x = true -> sf_finite y = true ->
  ((SF2Q x < SF2Q y)%Q <-> units x < units y).
Proof.
  intros Hx Hy. rewrite (SF2Q_units x Hx), (SF2Q_units y Hy).
  unfold Qlt. cbn [Qnum Qden].
  pose proof (Pos2Z.is_pos (2 ^ 149)%positive). split; nia.
Qed.

(** A larger raw value gives a larger result, the roundings included. *)
Lemma conv_Temp_units_mono (a b : Z) :
  0 <= a -> a < b -> b < 2 ^ 20 ->
  units (conv_Temp (F := spec_float) a) < units (conv_Temp (F := spec_float) b).
Proof.
  intros Ha Hab Hb.
  destruct (conv_Temp_units a ltac:(lia)) as (_ & _ & Ea).
  destruct (conv_Temp_units b ltac:(lia)) as (_ & _ & Eb).
  assert (E133 : 2 ^ 133 = 1048576 * 2 ^ 113) by reflexivity.
  pose proof (pow2_pos 113 ltac:(lia)) as HX.
  rewrite E133 in Ea, Eb. set (X := 2 ^ 113) in *. nia.
Qed.

Lemma conv_Humi_units_mono (a b : Z) :
  0 <= a -> a < b -> b < 2 ^ 20 ->
  units (conv_Humi (F := spec_float) a) < units (conv_Humi (F := spec_float) b).
Proof.
  intros Ha Hab Hb.
  destruct (conv_Humi_units a ltac:(lia)) as (_ & _ & Ea).
  destruct (conv_Humi_units b ltac:(lia)) as (_ & _ & Eb).
  assert (E131 : 2 ^ 131 = 524288 * 2 ^ 112) by reflexivity.
  pose proof (pow2_pos 112 ltac:(lia)) as HX.
  rewrite E131 in Ea, Eb. set (X := 2 ^ 112) in *. nia.
Qed.

(** The conversions at the raw values of the test vectors. *)
Lemma conv_Temp_at_0 :
  conv_Temp (F := spec_float) 0 = S754_finite true 13107200 (-18).
Proof. vm_compute. reflexivity. Qed.

Lemma conv_Temp_at_max :
  conv_Temp (F := spec_float) 0xFFFFF = S754_finite false 9830396 (-16).
Proof. vm_compute. reflexivity. Qed.

Lemma conv_Humi_at_half :
  conv_Humi (F := spec_float) 0x80000 = S754_finite false 13107141 (-18).
Proof. vm_compute. reflexivity. Qed.

Lemma conv_Humi_at_max :
  conv_Humi (F := spec_float) 0xFFFFF = S754_finite false 13107129 (-17).
Proof. vm_compute. reflexivity. Qed.

(** *** The readings on binary32 *)

Section Binary32.
Context {Dev : Type} `{I2C_Device Dev}.

(** C1, amended: on every validated frame [aht20_getData] stores the
    single-precision results of raw_temp * 190.735e-6 - 50 and raw_humidity
    * 95.367e-6 (the decimal factors of [aht20.h], each operation rounded
    to nearest, the raw value converted without truncation); so for every
    pair of 20-bit integers t_raw and h_raw, the frame packed from them with
    a correct CRC decodes to finite values within 1.6e-4 of
    t_raw * (200 / 2^20) - 50 and within 5e-4 of h_raw * (100 / 2^20). *)
Theorem aht20_getData_roundtrip (p : Z) (w : world spec_float Dev) :
  is_Some (ram w !! p) ->
  (status_ok (measure_frame w) = true ->
   crc_ok (measure_frame w) = true ->
   exists w' o,
     aht20_getData p w = Done AHT20_Res_OK w'
     /\ ram w' !! p = Some o
     /\ Temp o =
        SFsub 24 128
          (SFmul 24 128 (b32_of_Z (raw_Temp (measure_frame w)))
                 (S754_finite false 13107209 (-36)))
          (S754_finite false 13107200 (-18))
     /\ Humidity o =
        SFmul 24 128 (b32_of_Z (raw_Humi (measure_frame w)))
              (S754_finite false 13107141 (-37)))
  /\ (forall (status : byte) (t_raw h_raw : Z),
      0 <= t_raw < 2 ^ 20 ->
      0 <= h_raw < 2 ^ 20 ->
      flag_BUSY status = false ->
      flag_CAL status = true ->
      measure_frame w = pack_frame status h_raw t_raw ->
      exists w' o,
        aht20_getData p w = Done AHT20_Res_OK w'
        /\ ram w' !! p = Some o
        /\ sf_finite (Temp o) = true
        /\ sf_finite (Humidity o) = true
        /\ (Qabs (SF2Q (Temp o) - temperature_C t_raw) <= 16 # 100000)%Q
        /\ (Qabs (SF2Q (Humidity o) - humidity_pct h_raw) <= 5 # 10000)%Q).
Proof.
  intros Hp. split.
  - intros Hs Hc.
    destruct (aht20_getData_ok_lookup p w Hs Hc Hp) as [w' [Hrun Hlook]].
    exists w', (decode (measure_frame w)).
    split; [exact Hrun |]. split; [exact Hlook |].
    unfold decode; cbn [Temp Humidity].
    split; [apply conv_Temp_binary32 | apply conv_Humi_binary32].
  - intros status t_raw h_raw Ht Hh Hb Hc Hrx.
    destruct (aht20_getData_ok_lookup p w) as [w' [Hrun Hlook]].
    + rewrite Hrx. unfold status_ok. rewrite pack_frame_status, Hb, Hc. reflexivity.
    + rewrite Hrx. apply pack_frame_crc_ok.
    + exact Hp.
    + exists w', (decode (measure_frame w)).
      split; [exact Hrun |]. split; [exact Hlook |].
      rewrite Hrx. unfold decode; cbn [Temp Humidity].
      rewrite pack_frame_raw_Temp, pack_frame_raw_Humi by assumption.
      destruct (conv_Temp_Q t_raw Ht) as (Hft & _ & _ & Hnt).
      destruct (conv_Humi_Q h_raw Hh) as (Hfh & _ & _ & Hnh).
      split; [exact Hft |]. split; [exact Hfh |]. split; [exact Hnt | exact Hnh].
Qed.

(** C7, amended: for raw temperature 0 the stored temperature is exactly
    -50.0; the frame [0x18, 0x80, 0, 0, 0, 0, 0x86] (CAL=1, BUSY=0, correct
    CRC) makes [aht20_getData] return Ok with temperature exactly -50.0 and
    humidity 13107141 * 2^-18 (about 49.99977: within 2.3e-4 of 50.0, not
    equal to it); for raw temperature 0xFFFFF the stored temperature is
    9830396 * 2^-16 (about 149.99994: within 1.3e-4 of 149.99981, and
    above 85, so not clamped) and for raw humidity 0xFFFFF the stored
    humidity is 13107129 * 2^-17 (about 99.99946: within 4.5e-4 of
    99.99990). *)
Theorem aht20_getData_test_vectors (p : Z) (w : world spec_float Dev) :
  status_ok (measure_frame w) = true ->
  crc_ok (measure_frame w) = true ->
  is_Some (ram w !! p) ->
  exists w' o,
    aht20_getData p w = Done AHT20_Res_OK w'
    /\ ram w' !! p = Some o
    /\ pack_frame x18 0x80000 0 = frame_half
    /\ (raw_Temp (measure_frame w) = 0 ->
        Temp o = S754_finite true 13107200 (-18)
        /\ (SF2Q (Temp o) == - (50 # 1))%Q)
    /\ (measure_frame w = frame_half ->
        (SF2Q (Temp o) == - (50 # 1))%Q
        /\ Humidity o = S754_finite false 13107141 (-18)
        /\ (Qabs (SF2Q (Humidity o) - (50 # 1)) <= 23 # 100000)%Q)
    /\ (raw_Temp (measure_frame w) = 0xFFFFF ->
        Temp o = S754_finite false 9830396 (-16)
        /\ (Qabs (SF2Q (Temp o) - (14999981 # 100000)) <= 13 # 100000)%Q
        /\ (85 # 1 < SF2Q (Temp o))%Q)
    /\ (raw_Humi (measure_frame w) = 0xFFFFF ->
        Humidity o = S754_finite false 13107129 (-17)
        /\ (Qabs (SF2Q (Humidity o) - (9999990 # 100000)) <= 45 # 100000)%Q).
Proof.
  intros Hs Hc Hp.
  destruct (aht20_getData_ok_lookup p w Hs Hc Hp) as [w' [Hrun Hlook]].
  exists w', (decode (measure_frame w)).
  unfold decode; cbn [Temp Humidity].
  split; [exact Hrun |]. split; [exact Hlook |].
  split; [reflexivity |].
  split; [| split; [| split]].
  - intros ->. rewrite conv_Temp_at_0. split; reflexivity.
  - intros ->. change (raw_Temp frame_half) with 0.
    change (raw_Humi frame_half) with 0x80000.
    rewrite conv_Temp_at_0, conv_Humi_at_half.
    split; [reflexivity |]. split; [reflexivity |].
    vm_compute. discriminate.
  - intros ->. rewrite conv_Temp_at_max.
    split; [reflexivity |]. split; [vm_compute; discriminate | vm_compute; reflexivity].
  - intros ->. rewrite conv_Humi_at_max.
    split; [reflexivity |]. vm_compute. discriminate.
Qed.

(** C10: whatever the 7 received bytes are, the raw temperature and the
    raw humidity that [aht20_getData] computes are below 2^20, and on every
    return of Ok the stored single-precision temperature is finite and lies
    in [-50, 150) and the stored humidity is finite and lies in [0, 100),
    with no clamping in the code. *)
Theorem aht20_getData_ranges (p : Z) (w : world spec_float Dev) :
  (0 <= raw_Temp (measure_frame w) < 2 ^ 20
   /\ 0 <= raw_Humi (measure_frame w) < 2 ^ 20)
  /\ (forall w', aht20_getData p w = Done AHT20_Res_OK w' ->
      exists o, ram w' !! p = Some o
                /\ sf_finite (Temp o) = true /\ sf_finite (Humidity o) = true
                /\ (- (50 # 1) <= SF2Q (Temp o))%Q /\ (SF2Q (Temp o) < 150 # 1)%Q
                /\ (0 <= SF2Q (Humidity o))%Q /\ (SF2Q (Humidity o) < 100 # 1)%Q).
Proof.
  split.
  - split; [apply raw_Temp_range | apply raw_Humi_range].
  - intros w' Hrun. apply aht20_getData_ok_inv in Hrun as (_ & _ & Hlook).
    exists (decode (measure_frame w)). unfold decode; cbn [Temp Humidity].
    split; [exact Hlook |].
    destruct (conv_Temp_Q _ (raw_Temp_range (measure_frame w))) as (? & ? & ? & _).
    destruct (conv_Humi_Q _ (raw_Humi_range (measure_frame w))) as (? & ? & ? & _).
    auto 10.
Qed.

End Binary32.

(** *** Runs of the simulated device *)

Lemma aht20_getData_field_extraction_witness :
  aht20_getData 0x100 (sim_world [frame_half]) =
    Done AHT20_Res_OK
      (stored 0x100 {| Temp := conv_Temp (temp_field (measure_frame (sim_world [frame_half])));
                       Humidity := conv_Humi (humi_field (measure_frame (sim_world [frame_half]))) |}
              (after_measure (sim_world [frame_half]))).
Proof.
  apply (proj2 (proj2 (proj2 (proj2
           (aht20_getData_field_extraction 0x100 (sim_world [frame_half])))))).
  - vm_compute. reflexivity.
  - vm_compute. reflexivity.
  - eexists. vm_compute. reflexivity.
Defined.

Lemma aht20_getData_crc_gate_witness :
  (aht20_getData 0x100 (sim_world [frame_corrupt]) =
     Done AHT20_Res_ERR (after_measure (sim_world [frame_corrupt]))
   /\ ram (after_measure (sim_world [frame_corrupt])) = ram (sim_world [frame_corrupt]))
  /\ CRC8_Calc crc8_aht20 (measure_frame (sim_world [frame_half])) 7 = 0.
Proof.
  split.
  - apply (proj1 (aht20_getData_crc_gate 0x100 (sim_world [frame_corrupt]))).
    vm_compute. discriminate.
  - apply (proj1 (proj2 (aht20_getData_crc_gate 0x100 (sim_world [frame_half])))
             (stored 0x100 (decode frame_half) (after_measure (sim_world [frame_half])))).
    vm_compute. reflexivity.
Defined.

Lemma aht20_getData_status_gate_witness :
  aht20_getData 0x100 (sim_world [frame_busy]) =
    Done AHT20_Res_ERR (after_measure (sim_world [frame_busy]))
  /\ aht20_getData 0x100 (sim_world [frame_uncal]) =
       Done AHT20_Res_ERR (after_measure (sim_world [frame_uncal]))
  /\ aht20_getData 0x100 (sim_world [frame_half]) =
       Done AHT20_Res_OK
         (stored 0x100 {| Temp := conv_Temp (temp_field (measure_frame (sim_world [frame_half])));
                          Humidity := conv_Humi (humi_field (measure_frame (sim_world [frame_half]))) |}
                 (after_measure (sim_world [frame_half]))).
Proof.
  split; [| split].
  - apply (proj1 (aht20_getData_status_gate 0x100 (sim_world [frame_busy]))).
    left. vm_compute. reflexivity.
  - apply (proj1 (aht20_getData_status_gate 0x100 (sim_world [frame_uncal]))).
    right. vm_compute. reflexivity.
  - apply (proj2 (aht20_getData_status_gate 0x100 (sim_world [frame_half]))).
    + vm_compute. reflexivity.
    + vm_compute. reflexivity.
    + vm_compute. reflexivity.
    + eexists. vm_compute. reflexivity.
Defined.

Lemma aht20_getData_writes_only_on_ok_witness :
  ram (after_measure (sim_world [frame_corrupt])) = ram (sim_world [frame_corrupt])
  /\ ram (stored 0x100 (decode frame_half) (after_measure (sim_world [frame_half]))) !! 0x100
     = Some (decode (measure_frame (sim_world [frame_half]))).
Proof.
  split.
  - apply (proj1 (aht20_getData_writes_only_on_ok 0x100 (sim_world [frame_corrupt]))
             AHT20_Res_ERR).
    + vm_compute. reflexivity.
    + discriminate.
  - apply (proj2 (aht20_getData_writes_only_on_ok 0x100 (sim_world [frame_half]))).
    vm_compute. reflexivity.
Defined.

Lemma aht20_Init_calibration_witness :
  aht20_Init (sim_world [[x10]; [x10]]) =
    Done AHT20_Res_ERR (after_init (sim_world [[x10]; [x10]]))
  /\ aht20_Init (sim_world [[x10]; [x18]]) =
       Done AHT20_Res_OK (after_init (sim_world [[x10]; [x18]]))
  /\ In (Ev_write __AHT20_Add _AHT20_CMD_Init) (init_events (sim_world [[x10]; [x18]])).
Proof.
  split; [| split].
  - apply (proj2 (proj1 (proj2 (proj2 (proj2
             (aht20_Init_calibration (sim_world [[x10]; [x10]]))))))).
    vm_compute. reflexivity.
  - apply (proj2 (proj2 (proj2 (proj2 (proj2
             (aht20_Init_calibration (sim_world [[x10]; [x18]]))))))).
    vm_compute. reflexivity.
  - apply (proj2 (proj1 (proj2 (aht20_Init_calibration (sim_world [[x10]; [x18]]))))).
    vm_compute. reflexivity.
Defined.

Lemma aht20_never_timeout_witness :
  aht20_getData 0x100 (sim_world [frame_half]) =
    Done AHT20_Res_OK (stored 0x100 (decode frame_half) (after_measure (sim_world [frame_half])))
  /\ (AHT20_Res_OK = AHT20_Res_OK \/ AHT20_Res_OK = AHT20_Res_ERR).
Proof.
  assert (E : aht20_getData 0x100 (sim_world [frame_half]) =
              Done AHT20_Res_OK
                (stored 0x100 (decode frame_half) (after_measure (sim_world [frame_half]))))
    by (vm_compute; reflexivity).
  split; [exact E |].
  exact (proj2 (aht20_never_timeout 0x100 (sim_world [frame_half])) _ _ E).
Defined.

Lemma aht20_getData_validates_before_access_witness :
  ram (sim_world [frame_uncal]) !! 0 = None
  /\ aht20_getData 0 (sim_world [frame_uncal]) =
       Done AHT20_Res_ERR (after_measure (sim_world [frame_uncal]))
  /\ ram (after_measure (sim_world [frame_uncal])) = ram (sim_world [frame_uncal]).
Proof.
  split; [vm_compute; reflexivity |].
  apply (proj1 (aht20_getData_validates_before_access 0 (sim_world [frame_uncal]))).
  left. vm_compute. reflexivity.
Defined.

Lemma aht20_getData_roundtrip_witness :
  (exists w' o,
     aht20_getData 0x100 (sim_world [frame_full]) = Done AHT20_Res_OK w'
     /\ ram w' !! 0x100 = Some o
     /\ Temp o =
        SFsub 24 128
          (SFmul 24 128 (b32_of_Z (raw_Temp (measure_frame (sim_world [frame_full]))))
                 (S754_finite false 13107209 (-36)))
          (S754_finite false 13107200 (-18))
     /\ Humidity o =
        SFmul 24 128 (b32_of_Z (raw_Humi (measure_frame (sim_world [frame_full]))))
              (S754_finite false 13107141 (-37)))
  /\ (exists w' o,
        aht20_getData 0x100 (sim_world [pack_frame x18 0x80000 0x60000])
          = Done AHT20_Res_OK w'
        /\ ram w' !! 0x100 = Some o
        /\ sf_finite (Temp o) = true
        /\ sf_finite (Humidity o) = true
        /\ (Qabs (SF2Q (Temp o) - temperature_C 0x60000) <= 16 # 100000)%Q
        /\ (Qabs (SF2Q (Humidity o) - humidity_pct 0x80000) <= 5 # 10000)%Q).
Proof.
  split.
  - apply (proj1 (aht20_getData_roundtrip 0x100 (sim_world [frame_full])
                    (ex_intro _ _ eq_refl))).
    + vm_compute. reflexivity.
    + vm_compute. reflexivity.
  - apply (proj2 (aht20_getData_roundtrip 0x100
                    (sim_world [pack_frame x18 0x80000 0x60000])
                    (ex_intro _ _ eq_refl)) x18).
    + change (2 ^ 20) with 1048576. lia.
    + change (2 ^ 20) with 1048576. lia.
    + vm_compute. reflexivity.
    + vm_compute. reflexivity.
    + vm_compute. reflexivity.
Defined.

Lemma aht20_getData_test_vectors_witness :
  (exists w' o,
     aht20_getData 0x100 (sim_world [frame_half]) = Done AHT20_Res_OK w'
     /\ ram w' !! 0x100 = Some o
     /\ Temp o = S754_finite true 13107200 (-18)
     /\ Humidity o = S754_finite false 13107141 (-18)
     /\ (Qabs (SF2Q (Humidity o) - (50 # 1)) <= 23 # 100000)%Q)
  /\ (exists w' o,
        aht20_getData 0x100 (sim_world [frame_full]) = Done AHT20_Res_OK w'
        /\ ram w' !! 0x100 = Some o
        /\ Temp o = S754_finite false 9830396 (-16)
        /\ (Qabs (SF2Q (Temp o) - (14999981 # 100000)) <= 13 # 100000)%Q
        /\ (85 # 1 < SF2Q (Temp o))%Q
        /\ Humidity o = S754_finite false 13107129 (-17)
        /\ (Qabs (SF2Q (Humidity o) - (9999990 # 100000)) <= 45 # 100000)%Q).
Proof.
  split.
  - destruct (aht20_getData_test_vectors 0x100 (sim_world [frame_half]))
      as (w' & o & Hrun & Hlook & _ & Hzero & Hhalf & _).
    + vm_compute. reflexivity.
    + vm_compute. reflexivity.
    + eexists. vm_compute. reflexivity.
    + exists w', o.
      destruct Hzero as [Ht _]; [vm_compute; reflexivity |].
      destruct Hhalf as (_ & Hh & Hn); [vm_compute; reflexivity |]. auto.
  - destruct (aht20_getData_test_vectors 0x100 (sim_world [frame_full]))
      as (w' & o & Hrun & Hlook & _ & _ & _ & Htmax & Hhmax).
    + vm_compute. reflexivity.
    + vm_compute. reflexivity.
    + eexists. vm_compute. reflexivity.
    + exists w', o.
      destruct Htmax as (Ht & Hnt & Hclamp); [vm_compute; reflexivity |].
      destruct Hhmax as (Hh & Hnh); [vm_compute; reflexivity |]. auto 10.
Defined.

Lemma aht20_getData_ranges_witness :
  exists o,
    ram (stored 0x100 (decode frame_full) (after_measure (sim_world [frame_full]))) !! 0x100
      = Some o
    /\ sf_finite (Temp o) = true /\ sf_finite (Humidity o) = true
    /\ (- (50 # 1) <= SF2Q (Temp o))%Q /\ (SF2Q (Temp o) < 150 # 1)%Q
    /\ (0 <= SF2Q (Humidity o))%Q /\ (SF2Q (Humidity o) < 100 # 1)%Q.
Proof.
  apply (proj2 (aht20_getData_ranges 0x100 (sim_world [frame_full]))).
  vm_compute. reflexivity.
Defined.

(** *** Where the stored values leave the formulas *)

(** C1, as stated, fails: with both raw fields at 0xFFFFF the stored
    single-precision temperature and humidity are more than 1e-4 away from
    t_raw * (200 / 2^20) - 50 and h_raw * (100 / 2^20). *)
Lemma roundtrip_tolerance_counterexample :
  exists w' o,
    measure_frame (sim_world [frame_full]) = pack_frame x18 0xFFFFF 0xFFFFF
    /\ aht20_getData 0x100 (sim_world [frame_full]) = Done AHT20_Res_OK w'
    /\ ram w' !! 0x100 = Some o
    /\ ~ (Qabs (SF2Q (Temp o) - temperature_C 0xFFFFF) <= 1 # 10000)%Q
    /\ ~ (Qabs (SF2Q (Humidity o) - humidity_pct 0xFFFFF) <= 1 # 10000)%Q.
Proof.
  eexists. eexists. split; [vm_compute; reflexivity |].
  split; [vm_compute; reflexivity |].
  split; [vm_compute; reflexivity |].
  split; intros Hq; vm_compute in Hq; apply Hq; reflexivity.
Qed.

(** C7, as stated, fails: the frame of the scenario makes the code store
    the humidity 13107141 * 2^-18, which is not 50. *)
Lemma half_scale_humidity_counterexample :
  exists w' o,
    aht20_getData 0x100 (sim_world [frame_half]) = Done AHT20_Res_OK w'
    /\ ram w' !! 0x100 = Some o
    /\ Humidity o = S754_finite false 13107141 (-18)
    /\ ~ (SF2Q (Humidity o) == 50 # 1)%Q.
Proof.
  eexists. eexists. split; [vm_compute; reflexivity |].
  split; [vm_compute; reflexivity |].
  split; [reflexivity |].
  intros Hq; vm_compute in Hq; discriminate.
Qed.

(** *** The conversions on the binary32 arithmetic *)

Example binary32_constants :
  __AHT20_Temp_factor (F := spec_float) = S754_finite false 13107209 (-36)
  /\ __AHT20_Humi_factor (F := spec_float) = S754_finite false 13107141 (-37)
  /\ __AHT20_Temp_const (F := spec_float) = S754_finite false 13107200 (-18).
Proof. repeat split. Qed.

Example binary32_half :
  decode (F := spec_float) frame_half =
    {| Temp := S754_finite true 13107200 (-18);
       Humidity := S754_finite false 13107141 (-18) |}.
Proof. vm_compute. reflexivity. Qed.

Example binary32_full :
  decode (F := spec_float) frame_full =
    {| Temp := S754_finite false 9830396 (-16);
       Humidity := S754_finite false 13107129 (-17) |}
  /\ (SF2Q (S754_finite false 9830396 (-16)) < 150 # 1)%Q
  /\ (SF2Q (S754_finite false 13107129 (-17)) < 100 # 1)%Q
  /\ (SF2Q (S754_finite true 13107200 (-18)) == - (50 # 1))%Q.
Proof. repeat split. Qed.

(* ===================================================================== *)
(** ** Further properties of the driver *)
(* ===================================================================== *)

(** *** The checksum is linear *)

Lemma lxor_mod_pow2 (a b n : Z) :
  0 <= n -> (Z.lxor a b) mod 2 ^ n = Z.lxor (a mod 2 ^ n) (b mod 2 ^ n).
Proof.
  intros Hn. apply Z.bits_inj'. intros i Hi.
  rewrite Z.lxor_spec, !Z.testbit_mod_pow2, Z.lxor_spec by assumption.
  destruct (i <? n); reflexivity.
Qed.

Lemma lxor_range8 (a b : Z) :
  0 <= a < 256 -> 0 <= b < 256 -> 0 <= Z.lxor a b < 256.
Proof.
  intros Ha Hb.
  rewrite <- (Z.mod_small a 256), <- (Z.mod_small b 256) by assumption.
  change 256 with (2 ^ 8). rewrite <- lxor_mod_pow2 by lia.
  apply Z.mod_pos_bound. lia.
Qed.

Lemma lxor_swap (a b c : Z) : Z.lxor (Z.lxor a b) c = Z.lxor (Z.lxor a c) b.
Proof. rewrite !Z.lxor_assoc, (Z.lxor_comm b c). reflexivity. Qed.

Lemma lxor_cancel (a b c : Z) : Z.lxor (Z.lxor a c) (Z.lxor b c) = Z.lxor a b.
Proof.
  rewrite Z.lxor_assoc, (Z.lxor_comm b c), <- (Z.lxor_assoc c c b).
  rewrite Z.lxor_nilpotent, Z.lxor_0_l. reflexivity.
Qed.

Lemma crc8_shift_lxor (poly a b : Z) :
  crc8_shift poly (Z.lxor a b) = Z.lxor (crc8_shift poly a) (crc8_shift poly b).
Proof.
  unfold crc8_shift. rewrite Z.lxor_spec, Z.shiftl_lxor.
  change 256 with (2 ^ 8). rewrite !lxor_mod_pow2 by lia.
  destruct (Z.testbit a 7), (Z.testbit b 7); cbn [xorb].
  - rewrite lxor_cancel. reflexivity.
  - apply lxor_swap.
  - rewrite Z.lxor_assoc. reflexivity.
  - reflexivity.
Qed.

Lemma crc8_step8_lxor (poly a b : Z) :
  crc8_step8 poly (Z.lxor a b) = Z.lxor (crc8_step8 poly a) (crc8_step8 poly b).
Proof.
  unfold crc8_step8. generalize 8%nat. intros n.
  induction n as [| n IH].
  - reflexivity.
  - rewrite !Nat.iter_succ, IH. apply crc8_shift_lxor.
Qed.

Lemma crc8_step8_range (poly d : Z) : 0 <= crc8_step8 poly d < 256.
Proof. unfold crc8_step8. cbn [Nat.iter nat_rect]. apply crc8_shift_range. Qed.

Lemma crc8_byte_step8 (reg : Z) (b : byte) :
  crc8_byte crc8_aht20 reg b = crc8_step8 0x31 (Z.lxor reg (u8 b)).
Proof. reflexivity. Qed.

Lemma crc8_step8_nonzero (d : Z) : 0 < d < 256 -> 0 < crc8_step8 0x31 d < 256.
Proof.
  intros Hd. split; [| apply crc8_step8_range].
  assert (Hall : crc8_step8_keeps_nonzero = true) by (vm_compute; reflexivity).
  unfold crc8_step8_keeps_nonzero in Hall. rewrite forallb_forall in Hall.
  specialize (Hall (Z.to_nat d)).
  rewrite Z2Nat.id in Hall by lia.
  apply Z.ltb_lt, Hall, in_seq. lia.
Qed.

Lemma crc8_step8_zero (d : Z) : 0 <= d < 256 -> crc8_step8 0x31 d = 0 -> d = 0.
Proof.
  intros Hd Hz. destruct (Z.eq_dec d 0) as [E | E]; [exact E |].
  pose proof (crc8_step8_nonzero d). lia.
Qed.

(** A difference between two register values survives every further byte. *)
Lemma crc8_fold_lxor (l : list byte) :
  forall reg d, 0 < d < 256 ->
  exists d', 0 < d' < 256
             /\ fold_left (crc8_byte crc8_aht20) l (Z.lxor reg d) =
                Z.lxor (fold_left (crc8_byte crc8_aht20) l reg) d'.
Proof.
  induction l as [| b l IH]; intros reg d Hd; cbn [fold_left].
  - exists d. auto.
  - rewrite !crc8_byte_step8, lxor_swap, crc8_step8_lxor.
    apply IH, crc8_step8_nonzero, Hd.
Qed.

Lemma u8_inj (a b : byte) : u8 a = u8 b -> a = b.
Proof.
  unfold u8. intros E. apply N2Z.inj in E.
  pose proof (Byte.of_to_N a) as Ha. rewrite E, Byte.of_to_N in Ha.
  congruence.
Qed.

Lemma to_u8_of (z : Z) (b : byte) : z mod 256 = u8 b -> to_u8 z = b.
Proof. intros E. apply u8_inj. rewrite u8_to_u8. exact E. Qed.

(** *** What the checksum catches *)

(** The checksum of a frame that differs from an accepted one in one byte. *)
Lemma CRC8_one_byte_changed (l1 l2 : list byte) (b0 b : byte) :
  b <> b0 ->
  length (l1 ++ b0 :: l2) = 7%nat ->
  CRC8_Calc crc8_aht20 (l1 ++ b0 :: l2) 7 = 0 ->
  CRC8_Calc crc8_aht20 (l1 ++ b :: l2) 7 <> 0.
Proof.
  intros Hne Hlen. unfold CRC8_Calc. cbn [refOut xorOut Init crc8_aht20].
  rewrite !Z.lxor_0_r.
  rewrite !firstn_all2
    by (rewrite length_app in *; cbn [length] in *; lia).
  rewrite !fold_left_app. cbn [fold_left].
  set (r := fold_left (crc8_byte crc8_aht20) l1 255).
  rewrite !crc8_byte_step8.
  set (x := crc8_step8 49 (Z.lxor r (u8 b0))).
  intros Hz.
  set (e := Z.lxor (u8 b0) (u8 b)).
  assert (He : 0 < e < 256).
  { pose proof (lxor_range8 (u8 b0) (u8 b) (u8_range b0) (u8_range b)).
    assert (e <> 0); [| subst e; lia].
    subst e. intros E. apply Z.lxor_eq, u8_inj in E. congruence. }
  replace (Z.lxor r (u8 b)) with (Z.lxor (Z.lxor r (u8 b0)) e).
  2:{ subst e. rewrite Z.lxor_assoc, <- (Z.lxor_assoc (u8 b0)).
      rewrite Z.lxor_nilpotent, Z.lxor_0_l. reflexivity. }
  rewrite crc8_step8_lxor. fold x.
  destruct (crc8_fold_lxor l2 x (crc8_step8 49 e)) as [d' [Hd' Hfold]].
  - apply crc8_step8_nonzero, He.
  - rewrite Hfold, Hz, Z.lxor_0_l. lia.
Qed.

(** The zero test over 7 bytes compares byte 6 with the checksum of the
    six bytes before it. *)
Lemma CRC8_zero_iff (body : list byte) (c : byte) :
  CRC8_Calc crc8_aht20 (body ++ [c]) (S (length body)) = 0
  <-> c = to_u8 (CRC8_Calc crc8_aht20 body (length body)).
Proof.
  unfold CRC8_Calc. cbn [refOut xorOut Init crc8_aht20].
  rewrite firstn_all, !Z.lxor_0_r.
  rewrite firstn_all2 by (rewrite length_app; cbn [length]; lia).
  rewrite fold_left_app. cbn [fold_left].
  set (reg := fold_left (crc8_byte crc8_aht20) body 255).
  assert (Hreg : 0 <= reg < 256) by (apply crc8_fold_range; lia).
  rewrite crc8_byte_step8. split.
  - intros Hz. apply crc8_step8_zero in Hz.
    + apply Z.lxor_eq in Hz. symmetry. apply to_u8_of.
      rewrite Z.mod_small by assumption. exact Hz.
    + apply lxor_range8; [assumption | apply u8_range].
  - intros ->. rewrite u8_to_u8, Z.mod_small, Z.lxor_nilpotent by assumption.
    reflexivity.
Qed.

Lemma crc_ok_one_byte_changed (rx : list byte) (i : nat) (b0 b : byte) :
  length rx = 7%nat ->
  rx !! i = Some b0 ->
  b <> b0 ->
  crc_ok rx = true ->
  crc_ok (<[i := b]> rx) = false.
Proof.
  intros Hlen Hi Hne Hcrc.
  assert (Hlt : (i < length rx)%nat) by (apply lookup_lt_is_Some; eauto).
  rewrite insert_take_drop by exact Hlt.
  pose proof (take_drop_middle _ _ _ Hi) as Hmid.
  unfold crc_ok in Hcrc |- *. apply Z.eqb_eq in Hcrc. apply Z.eqb_neq.
  rewrite <- Hmid in Hcrc, Hlen.
  exact (CRC8_one_byte_changed _ _ b0 b Hne Hlen Hcrc).
Qed.

Lemma CRC8_Calc_firstn (h : hcrc8_T) (l : list byte) (n : nat) :
  CRC8_Calc h (firstn n l) n = CRC8_Calc h l n.
Proof. unfold CRC8_Calc. rewrite firstn_firstn, Nat.min_id. reflexivity. Qed.

Section Checksum.
Context {F : Type} `{FloatOps F} {Dev : Type} `{I2C_Device Dev}.

Local Abbreviation W := (world F Dev).

Lemma measure_frame_split (w : W) :
  measure_frame w =
    firstn 6 (measure_frame w) ++ [nth 6 (measure_frame w) x00].
Proof. reflexivity. Qed.

Lemma measure_frame_crc_ok_iff (w : W) :
  crc_ok (measure_frame w) = true
  <-> nth 6 (measure_frame w) x00 =
      to_u8 (CRC8_Calc crc8_aht20 (measure_frame w) 6).
Proof.
  unfold crc_ok. rewrite Z.eqb_eq.
  pose proof (CRC8_zero_iff (firstn 6 (measure_frame w))
                (nth 6 (measure_frame w) x00)) as Hiff.
  change (length (firstn 6 (measure_frame w))) with 6%nat in Hiff.
  rewrite <- measure_frame_split, CRC8_Calc_firstn in Hiff.
  exact Hiff.
Qed.

(** X3: a frame that differs in exactly one byte, at any of the 7
    positions and by any value, from a frame [aht20_getData] accepts is
    rejected with Err: the CRC-8 profile set up in [aht20_getData] lets no
    single corrupted byte through. *)
Theorem aht20_getData_rejects_one_changed_byte
    (p p2 : Z) (w w' w2 : W) (i : nat) (b0 b : byte) :
  aht20_getData p w = Done AHT20_Res_OK w' ->
  measure_frame w !! i = Some b0 ->
  b <> b0 ->
  measure_frame w2 = <[i := b]> (measure_frame w) ->
  aht20_getData p2 w2 = Done AHT20_Res_ERR (after_measure w2).
Proof.
  intros Hok Hi Hne Hrx.
  apply aht20_getData_ok_inv in Hok as (_ & Hcrc & _).
  apply aht20_getData_err. rewrite Hrx.
  rewrite (crc_ok_one_byte_changed _ i b0 b (measure_frame_length w) Hi Hne Hcrc).
  apply andb_false_r.
Qed.

(** X4: on a frame whose status byte passes, with [_Data] designating an
    object, [aht20_getData] returns Ok exactly when byte 6 of the frame
    equals the CRC-8 of bytes 0 to 5: the zero test over all 7 bytes is the
    comparison of the received checksum with the computed one. *)
Theorem aht20_getData_ok_iff_checksum_byte (p : Z) (w : W) :
  status_ok (measure_frame w) = true ->
  is_Some (ram w !! p) ->
  (exists w', aht20_getData p w = Done AHT20_Res_OK w')
  <-> nth 6 (measure_frame w) x00 =
      to_u8 (CRC8_Calc crc8_aht20 (measure_frame w) 6).
Proof.
  intros Hs Hp. rewrite <- measure_frame_crc_ok_iff. split.
  - intros [w' Hok]. apply aht20_getData_ok_inv in Hok. tauto.
  - intros Hc. destruct (aht20_getData_ok_lookup p w Hs Hc Hp) as [w' [Hok _]].
    eauto.
Qed.

(** X5: the frame of a call that returned Ok is the frame packed from its
    own status byte and the two raw fields extracted from it: the
    extraction loses none of the 40 data bits, and the accepted frames are
    exactly the packed ones. *)
Theorem aht20_getData_frame_repacks (p : Z) (w w' : W) :
  aht20_getData p w = Done AHT20_Res_OK w' ->
  pack_frame (frame_status (measure_frame w))
             (raw_Humi (measure_frame w)) (raw_Temp (measure_frame w))
  = measure_frame w.
Proof.
  intros Hok. apply aht20_getData_ok_inv in Hok as (_ & Hcrc & _).
  apply measure_frame_crc_ok_iff in Hcrc.
  assert (Hbody : frame_body (frame_status (measure_frame w))
                    (raw_Humi (measure_frame w)) (raw_Temp (measure_frame w))
                  = firstn 6 (measure_frame w)).
  { rewrite raw_Humi_arith, raw_Temp_arith.
    unfold measure_frame, frame_body, frame_status, rx_at.
    set (f := fst (dev_read __AHT20_Add (measure_dev w))).
    cbn [map seq nth firstn].
    pose proof (u8_range (f 1%nat)). pose proof (u8_range (f 2%nat)).
    pose proof (u8_range (f 3%nat)). pose proof (u8_range (f 4%nat)).
    pose proof (u8_range (f 5%nat)).
    repeat (f_equal; try (apply to_u8_of));
      rewrite ?land_0xF, ?Z.shiftr_div_pow2 by lia;
      change (2 ^ 12) with 4096; change (2 ^ 4) with 16;
      change (2 ^ 16) with 65536; change (2 ^ 8) with 256.
    - Z.div_mod_to_equations. lia.
    - Z.div_mod_to_equations. lia.
    - rewrite lor_shiftl_add
        by (change (2 ^ 4) with 16; try lia; Z.div_mod_to_equations; lia).
      change (2 ^ 4) with 16. Z.div_mod_to_equations. lia.
    - Z.div_mod_to_equations. lia.
    - Z.div_mod_to_equations. lia. }
  unfold pack_frame. rewrite Hbody, CRC8_Calc_firstn, <- Hcrc.
  symmetry. apply measure_frame_split.
Qed.

End Checksum.

(** *** The footprint of a call, and calls in sequence *)

Section Footprint.
Context {F : Type} `{FloatOps F} {Dev : Type} `{I2C_Device Dev}.

Local Abbreviation W := (world F Dev).

(** What a return of Ok or Err tells about the memory. *)
Lemma aht20_getData_ok_ram (p : Z) (w w' : W) :
  aht20_getData p w = Done AHT20_Res_OK w' ->
  is_Some (ram w !! p) /\ ram w' = <[p := decode (measure_frame w)]> (ram w).
Proof.
  rewrite aht20_getData_run.
  destruct (status_ok _ && crc_ok _); [| discriminate].
  destruct (ram w !! p) as [o |]; [| discriminate].
  intros E. injection E as <-. split; [eauto | reflexivity].
Qed.

Lemma aht20_getData_err_ram (p : Z) (w w' : W) :
  aht20_getData p w = Done AHT20_Res_ERR w' -> ram w' = ram w.
Proof.
  rewrite aht20_getData_run.
  destruct (status_ok _ && crc_ok _); [destruct (ram w !! p); discriminate |].
  intros E. injection E as <-. reflexivity.
Qed.

(** X1: whatever the outcome of [aht20_getData] is (Ok, Err on a bad
    status, Err on a bad CRC, or a fault at the stores), the call has done
    the same three things on the bus, once and in this order: written the
    trigger command 0xAC 0x33 0x00 to address 0x38, waited 80 ms, read 7
    bytes from address 0x38; a failed measurement is neither retried nor
    cut short, and the device is left in the same state. *)
Theorem aht20_getData_footprint (p : Z) (w : W) :
  trace (final_world (aht20_getData p w)) =
    trace w ++ [Ev_write 0x38 [xac; x33; x00]; Ev_delay 80; Ev_read 0x38 7]
  /\ bus (final_world (aht20_getData p w)) =
     snd (dev_read 0x38 (dev_delay 80 (dev_write 0x38 [xac; x33; x00] (bus w)))).
Proof.
  rewrite aht20_getData_run.
  destruct (status_ok _ && crc_ok _); [destruct (ram w !! p) |];
    split; reflexivity.
Qed.


(** X6: after a call of [aht20_getData] that returned Ok, a second call
    with the same pointer never faults; if it returns Err the object still
    holds the reading of the first call, and if it returns Ok the object
    holds the new reading and the memory is what a single successful call
    would have left. *)
Theorem aht20_getData_twice (p : Z) (w w1 : W) :
  aht20_getData p w = Done AHT20_Res_OK w1 ->
  (exists r w2, aht20_getData p w1 = Done r w2)
  /\ (forall w2, aht20_getData p w1 = Done AHT20_Res_ERR w2 ->
      ram w2 !! p = Some (decode (measure_frame w)))
  /\ (forall w2, aht20_getData p w1 = Done AHT20_Res_OK w2 ->
      ram w2 = <[p := decode (measure_frame w1)]> (ram w)).
Proof.
  intros Hok. apply aht20_getData_ok_ram in Hok as [_ Hram].
  assert (Hlook : ram w1 !! p = Some (decode (measure_frame w)))
    by (rewrite Hram; apply lookup_insert_eq).
  split; [| split].
  - rewrite aht20_getData_run, Hlook.
    destruct (status_ok _ && crc_ok _); eauto.
  - intros w2 Herr. apply aht20_getData_err_ram in Herr. rewrite Herr. exact Hlook.
  - intros w2 Hok2. apply aht20_getData_ok_ram in Hok2 as [_ Hram2].
    rewrite Hram2, Hram. apply insert_insert_eq.
Qed.

End Footprint.

(** *** Order of the readings *)

(** X7: on the single-precision arithmetic, roundings included, both
    conversions of [aht20_getData] are strictly increasing over the 20-bit
    raw values: a larger raw temperature gives a larger stored temperature
    and a larger raw humidity a larger stored humidity, and only equal raw
    values are converted to equal readings. *)
Theorem conversions_strictly_increasing (a b : Z) :
  0 <= a < 2 ^ 20 ->
  0 <= b < 2 ^ 20 ->
  ((SF2Q (conv_Temp (F := spec_float) a) < SF2Q (conv_Temp (F := spec_float) b))%Q
   <-> a < b)
  /\ ((SF2Q (conv_Humi (F := spec_float) a) < SF2Q (conv_Humi (F := spec_float) b))%Q
      <-> a < b)
  /\ (conv_Temp (F := spec_float) a = conv_Temp (F := spec_float) b <-> a = b)
  /\ (conv_Humi (F := spec_float) a = conv_Humi (F := spec_float) b <-> a = b).
Proof.
  intros Ha Hb.
  destruct (conv_Temp_units a Ha) as (Fta & _).
  destruct (conv_Temp_units b Hb) as (Ftb & _).
  destruct (conv_Humi_units a Ha) as (Fha & _).
  destruct (conv_Humi_units b Hb) as (Fhb & _).
  pose proof (fun H => conv_Temp_units_mono a b (proj1 Ha) H (proj2 Hb)) as Tab.
  pose proof (fun H => conv_Temp_units_mono b a (proj1 Hb) H (proj2 Ha)) as Tba.
  pose proof (fun H => conv_Humi_units_mono a b (proj1 Ha) H (proj2 Hb)) as Hab.
  pose proof (fun H => conv_Humi_units_mono b a (proj1 Hb) H (proj2 Ha)) as Hba.
  split; [| split; [| split]].
  - rewrite (SF2Q_lt_units _ _ Fta Ftb). split; [| exact Tab].
    intros Hu. destruct (Z.lt_trichotomy a b) as [Hlt | [-> | Hgt]].
    + exact Hlt.
    + lia.
    + specialize (Tba Hgt). lia.
  - rewrite (SF2Q_lt_units _ _ Fha Fhb). split; [| exact Hab].
    intros Hu. destruct (Z.lt_trichotomy a b) as [Hlt | [-> | Hgt]].
    + exact Hlt.
    + lia.
    + specialize (Hba Hgt). lia.
  - split; [| intros ->; reflexivity].
    intros E. apply (f_equal units) in E.
    destruct (Z.lt_trichotomy a b) as [Hlt | [Heq | Hgt]].
    + specialize (Tab Hlt). lia.
    + exact Heq.
    + specialize (Tba Hgt). lia.
  - split; [| intros ->; reflexivity].
    intros E. apply (f_equal units) in E.
    destruct (Z.lt_trichotomy a b) as [Hlt | [Heq | Hgt]].
    + specialize (Hab Hlt). lia.
    + exact Heq.
    + specialize (Hba Hgt). lia.
Qed.

(** *** Further runs of the simulated device *)

Lemma aht20_getData_rejects_one_changed_byte_witness :
  aht20_getData 0x100 (sim_world [frame_corrupt]) =
    Done AHT20_Res_ERR (after_measure (sim_world [frame_corrupt])).
Proof.
  apply (aht20_getData_rejects_one_changed_byte 0x100 0x100
           (sim_world [frame_half])
           (stored 0x100 (decode frame_half) (after_measure (sim_world [frame_half])))
           (sim_world [frame_corrupt]) 6 x86 x00).
  - vm_compute. reflexivity.
  - vm_compute. reflexivity.
  - discriminate.
  - vm_compute. reflexivity.
Defined.

Lemma aht20_getData_ok_iff_checksum_byte_witness :
  exists w', aht20_getData 0x100 (sim_world [frame_half]) = Done AHT20_Res_OK w'.
Proof.
  refine (proj2 (aht20_getData_ok_iff_checksum_byte 0x100 (sim_world [frame_half])
                   _ _) _).
  - vm_compute. reflexivity.
  - eexists. vm_compute. reflexivity.
  - vm_compute. reflexivity.
Defined.

Lemma aht20_getData_frame_repacks_witness :
  pack_frame (frame_status (measure_frame (sim_world [frame_full])))
             (raw_Humi (measure_frame (sim_world [frame_full])))
             (raw_Temp (measure_frame (sim_world [frame_full])))
  = measure_frame (sim_world [frame_full]).
Proof.
  apply (aht20_getData_frame_repacks 0x100 (sim_world [frame_full])
           (stored 0x100 (decode frame_full) (after_measure (sim_world [frame_full])))).
  vm_compute. reflexivity.
Defined.

Lemma aht20_getData_twice_witness :
  ram (after_measure
         (stored 0x100 (decode frame_half)
            (after_measure (sim_world [frame_half; frame_corrupt])))) !! 0x100
  = Some (decode (measure_frame (sim_world [frame_half; frame_corrupt]))).
Proof.
  refine (proj1 (proj2 (aht20_getData_twice 0x100
                          (sim_world [frame_half; frame_corrupt])
                          (stored 0x100 (decode frame_half)
                             (after_measure (sim_world [frame_half; frame_corrupt])))
                          _)) _ _).
  - vm_compute. reflexivity.
  - vm_compute. reflexivity.
Defined.

Lemma conversions_strictly_increasing_witness :
  (SF2Q (conv_Temp (F := spec_float) 0x60000)
   < SF2Q (conv_Temp (F := spec_float) 0x60001))%Q.
Proof.
  refine (proj2 (proj1 (conversions_strictly_increasing 0x60000 0x60001 _ _)) _).
  - change (2 ^ 20) with 1048576. lia.
  - change (2 ^ 20) with 1048576. lia.
  - lia.
Defined.
